(** * ip_isr: the calibration artifact model ([lsst.ip.isr.calibType])

    A shallow embedding of [python/lsst/ip/isr/calibType.py]: the abstract
    calibration base class [IsrCalib] and its reference subclass
    [IsrProvenance], followed by the properties of the specification that
    concern them.

    Python objects that the code shares by reference (the
    [lsst.daf.base.PropertyList] holding a calibration's metadata) live in an
    explicit heap; everything else is passed by value.  Exceptions are the
    [Raise] branch of a result type, and every method is a computation in a
    state-and-exception monad over the heap and the wall clock. *)

From stdpp Require Import base strings gmap list sets pretty sorting.
From Stdlib Require Import ZArith Ascii.

#[global] Set Warnings "-clear-no-such-hyp".

(** ** Python scalars, truthiness and exceptions *)

Module Py.

(** The scalars that identity fields, metadata entries and data-id entries
    hold: [None], [str] and [int]. *)
Inductive value :=
| VNone
| VStr (s : string)
| VInt (z : Z).

#[global] Instance value_eq_dec : EqDecision value.
Proof. solve_decision. Defined.

(** [bool(v)], as taken by [if v:] and by [x if v else None]. *)
Definition truthy (v : value) : bool :=
  match v with
  | VNone => false
  | VStr s => negb (bool_decide (s = ""))
  | VInt z => negb (bool_decide (z = 0%Z))
  end.

(** [str(v)], as an f-string interpolates it. *)
Definition str (v : value) : string :=
  match v with
  | VNone => "None"
  | VStr s => s
  | VInt z => pretty z
  end.

Inductive exn :=
| AttributeError (name : string)
| IndexError
| KeyError (key : string)
| NameError (name : string)
| NotImplementedError (msg : string)
| OSError
| RuntimeError (msg : string)
| TypeError (msg : string)
| ValueError (msg : string).

#[global] Instance exn_eq_dec : EqDecision exn.
Proof. solve_decision. Defined.

Inductive result (A : Type) :=
| Ok (a : A)
| Raise (e : exn).
Arguments Ok {A} a.
Arguments Raise {A} e.

Definition raises {A} (r : result A) : bool :=
  match r with Ok _ => false | Raise _ => true end.

(** *** [str] methods *)

Definition lower_char (c : ascii) : ascii :=
  let n := nat_of_ascii c in
  if (65 <=? n)%nat && (n <=? 90)%nat then ascii_of_nat (n + 32) else c.

(** [s.lower()] on ASCII text. *)
Fixpoint lower (s : string) : string :=
  match s with
  | EmptyString => EmptyString
  | String c s' => String (lower_char c) (lower s')
  end.

(** [s.endswith(suffix)]: some tail of [s] is [suffix]. *)
Fixpoint endswith1 (s suffix : string) : bool :=
  bool_decide (s = suffix) ||
  match s with
  | EmptyString => false
  | String _ s' => endswith1 s' suffix
  end.

(** [s.endswith((suffix1, suffix2, ...))]. *)
Definition endswith (s : string) (suffixes : list string) : bool :=
  existsb (endswith1 s) suffixes.

(** [c in s] for a one-character string [c]. *)
Fixpoint contains (c : ascii) (s : string) : bool :=
  match s with
  | EmptyString => false
  | String a s' => bool_decide (a = c) || contains c s'
  end.

(** [s.count(c)] for a one-character string [c]. *)
Fixpoint count_char (c : ascii) (s : string) : nat :=
  match s with
  | EmptyString => 0
  | String a s' => (if bool_decide (a = c) then 1 else 0) + count_char c s'
  end.

(** [s.split(sep)] for a one-character separator: one more part than there
    are separators, empty parts kept. *)
Fixpoint split (sep : ascii) (s : string) : list string :=
  match s with
  | EmptyString => [EmptyString]
  | String a s' =>
      if bool_decide (a = sep) then EmptyString :: split sep s'
      else match split sep s' with
           | part :: parts => String a part :: parts
           | [] => [String a EmptyString]
           end
  end.

(** [sep.join(parts)]. *)
Fixpoint join (sep : string) (parts : list string) : string :=
  match parts with
  | [] => ""
  | [p] => p
  | p :: ps => p +:+ sep +:+ join sep ps
  end.

(** [s.rfind(c)]: index of the last [c], [-1] when there is none.  [i] is
    the index of the head of [s] in the whole string. *)
Fixpoint rfind_from (c : ascii) (s : string) (i : Z) : Z :=
  match s with
  | EmptyString => (-1)%Z
  | String a s' =>
      let r := rfind_from c s' (i + 1)%Z in
      if (0 <=? r)%Z then r else if bool_decide (a = c) then i else (-1)%Z
  end.
Definition rfind (c : ascii) (s : string) : Z := rfind_from c s 0%Z.

(** [p[:i]] and [p[i:]] for [0 <= i]. *)
Definition slice_to (p : string) (i : Z) : string :=
  String.substring 0 (Z.to_nat i) p.
Definition slice_from (p : string) (i : Z) : string :=
  String.substring (Z.to_nat i) (String.length p - Z.to_nat i) p.

(** The loop of [genericpath._splitext] that skips the leading dots of the
    last path component: [n] iterations remain, [filenameIndex] is the
    loop variable. *)
Fixpoint splitext_scan (p : string) (dotIndex : Z) (n : nat)
    (filenameIndex : Z) : string * string :=
  match n with
  | O => (p, "")
  | S n' =>
      if bool_decide (String.get (Z.to_nat filenameIndex) p = Some "."%char)
      then splitext_scan p dotIndex n' (filenameIndex + 1)%Z
      else (slice_to p dotIndex, slice_from p dotIndex)
  end.

(** [os.path.splitext(p)] (posixpath: separator [/], extension separator
    [.]). *)
Definition splitext (p : string) : string * string :=
  let sepIndex := rfind "/"%char p in
  let dotIndex := rfind "."%char p in
  if (sepIndex <? dotIndex)%Z then
    let filenameIndex := (sepIndex + 1)%Z in
    splitext_scan p dotIndex (Z.to_nat (dotIndex - filenameIndex)) filenameIndex
  else (p, "").

End Py.
Export Py.

(** ** The interpreter state: heap, wall clock, set iteration order *)

Module Runtime.

(** The contents of a [lsst.daf.base.PropertyList]: string keys, scalar
    values, a key set to [None] being present with value [VNone].  Equality
    of two property lists is equality of their contents. *)
Abbreviation PropertyList := (gmap string value).

(** A data id, and a row of a table: a [dict] from names to scalars. *)
Abbreviation dataId := (gmap string value).

Definition loc := positive.

(** What [datetime.datetime.now()] gives: the three renderings the code
    stores. *)
Record datetime := {
  isoformat : string;
  date_isoformat : string;
  time_isoformat : string;
}.

(** Python leaves the iteration order of a [set] unspecified; the state
    carries whichever enumeration the interpreter uses. *)
Record world := {
  heap : gmap loc PropertyList;
  clock : nat → datetime;
  ticks : nat;
  set_iter : gset string → list string;
  set_iter_perm : ∀ s, set_iter s ≡ₚ elements s;
}.

Definition with_heap (h : gmap loc PropertyList) (w : world) : world :=
  {| heap := h; clock := clock w; ticks := ticks w;
     set_iter := set_iter w; set_iter_perm := set_iter_perm w |}.

Definition tick (w : world) : world :=
  {| heap := heap w; clock := clock w; ticks := S (ticks w);
     set_iter := set_iter w; set_iter_perm := set_iter_perm w |}.

Definition M (A : Type) : Type := world → result (A * world).

#[global] Instance M_ret : MRet M := λ A a w, Ok (a, w).
#[global] Instance M_bind : MBind M := λ A B f m w,
  match m w with
  | Ok (a, w') => f a w'
  | Raise e => Raise e
  end.
#[global] Instance M_throw : MThrow exn M := λ A e w, Raise e.

(** [try: body except Exception: handler]. *)
Definition try_except {A} (body : M A) (handler : exn → M A) : M A := λ w,
  match body w with
  | Ok r => Ok r
  | Raise e => handler e w
  end.

Definition lift {A} (r : result A) : M A := λ w,
  match r with
  | Ok a => Ok (a, w)
  | Raise e => Raise e
  end.

(** [for x in s] over a set. *)
Definition iter_set (s : gset string) : M (list string) := λ w,
  Ok (set_iter w s, w).

Definition datetime_now : M datetime := λ w,
  Ok (clock w (ticks w), tick w).

(** *** Property lists on the heap *)

(** Allocation of a new property list holding [md], and replacement of
    the contents behind a reference. *)
Definition alloc (md : PropertyList) : M loc := λ w,
  let l := fresh (dom (heap w)) in
  Ok (l, with_heap (<[l := md]> (heap w)) w).

Definition store (l : loc) (md : PropertyList) : M unit := λ w,
  Ok (tt, with_heap (<[l := md]> (heap w)) w).

(** The contents behind a reference ([md.toDict()], [**md], [md == md']). *)
Definition md_read (l : loc) : M PropertyList := λ w,
  match heap w !! l with
  | Some md => Ok (md, w)
  | None => Raise (AttributeError "PropertyList")
  end.

(** [PropertyList()]. *)
Definition PropertyList_new : M loc := alloc ∅.

(** [copy.copy(md)]: a new property list with the same entries. *)
Definition copy_copy (l : loc) : M loc :=
  md ← md_read l; alloc md.

(** [md[key] = v]. *)
Definition md_setitem (l : loc) (key : string) (v : value) : M unit :=
  md ← md_read l; store l (<[key := v]> md).

(** [md.update(other)]: every entry of [other] is set in [md]. *)
Definition md_update (l : loc) (other : gmap string value) : M unit :=
  md ← md_read l; store l (other ∪ md).

End Runtime.
Export Runtime.

(** ** The standard library's [warnings] *)

Module Warnings.

(** [warnings.catch_warnings] called with positional arguments: the
    constructor's parameters [record] and [module] are keyword-only, so
    any positional argument is a [TypeError]. *)
Definition catch_warnings (positional : list value) : M unit :=
  match positional with
  | [] => mret tt
  | _ :: _ =>
      mthrow (TypeError "catch_warnings.__init__() takes 1 positional argument but 2 were given")
  end.

End Warnings.

(** ** Collaborators: camera geometry, astropy tables, files *)

(** [lsst.afw.cameraGeom.Camera], as far as the calibration reads it. *)
Module Camera.
Record t := { getName : string }.
End Camera.

(** [lsst.afw.cameraGeom.Detector], as far as the calibration reads it. *)
Module Detector.
Record t := { getName : string; getSerial : string; getId : Z }.
End Detector.

Module Astropy.

(** An [astropy.table.Table]: column names in order, rows as mappings
    from column name to cell, and the table-level [meta] mapping.  Cells
    are carried unchanged (numpy's coercion of a column to one dtype is
    not part of this model). *)
Record Table := {
  columns : list string;
  rows : list dataId;
  meta : gmap string value;
}.

#[global] Instance Table_eq_dec : EqDecision Table.
Proof. solve_decision. Defined.

Definition with_meta (m : gmap string value) (t : Table) : Table :=
  {| columns := columns t; rows := rows t; meta := m |}.

(** [Table(rows=rows, names=names)] for a list of dicts [rows]: every
    row has to supply exactly the named columns, a table without columns
    has no rows, and column names without any row to fill them are
    refused. *)
Definition Table_new (rows : list dataId) (names : list string) : result Table :=
  match rows, names with
  | [], _ :: _ =>
      Raise (ValueError "Arguments names and dtype must match number of columns")
  | _, _ =>
      if forallb (λ row, bool_decide (dom row = list_to_set names)) rows
      then Ok {| columns := names;
                 rows := match names with [] => [] | _ => rows end;
                 meta := ∅ |}
      else Raise (ValueError "Row has no value for column")
  end.

(** [row[name]]. *)
Definition row_get (row : dataId) (name : string) : result value :=
  match row !! name with
  | Some v => Ok v
  | None => Raise (KeyError name)
  end.

(** A FITS file is a list of header-data units: [fits.PrimaryHDU()] and
    [fits.table_to_hdu(table)]. *)
Inductive hdu :=
| PrimaryHDU
| BinTableHDU (t : Table).

(** What a path holds, [D] being the type of the dictionaries that
    [yaml.dump] receives. *)
Inductive file (D : Type) :=
| YamlFile (doc : D)
| EcsvFile (t : Table)
| FitsFile (hdus : list hdu).
Arguments YamlFile {D} doc.
Arguments EcsvFile {D} t.
Arguments FitsFile {D} hdus.

Abbreviation filesystem D := (gmap string (file D)).

(** [Table.read(filename, hdu=n)]: the table in unit [n], counted from
    the primary unit [0]. *)
Definition Table_read_hdu {D} (fs : filesystem D) (filename : string)
    (n : nat) : result Table :=
  match fs !! filename with
  | Some (FitsFile hdus) =>
      match hdus !! n with
      | Some (BinTableHDU t) => Ok t
      | Some PrimaryHDU => Raise (ValueError "No table found in hdu")
      | None => Raise IndexError
      end
  | _ => Raise OSError
  end.



End Astropy.
Export Astropy.

(** ** Classes, attributes and objects *)

Inductive pycls :=
| IsrCalibCls
| IsrProvenanceCls
| ObjectCls.

#[global] Instance pycls_eq_dec : EqDecision pycls.
Proof. solve_decision. Defined.

(** [issubclass(c, d)] for the classes of the module. *)
Definition issubclass (c d : pycls) : bool :=
  match c, d with
  | _, ObjectCls => true
  | IsrCalibCls, IsrCalibCls => true
  | IsrProvenanceCls, (IsrCalibCls | IsrProvenanceCls) => true
  | _, _ => false
  end.

(** The class attributes, resolved through the class of the instance:
    [IsrCalib] defines all three, [IsrProvenance] overrides [_OBSTYPE]. *)
Definition _OBSTYPE (cls : pycls) : string :=
  match cls with
  | IsrProvenanceCls => "IsrProvenance"
  | _ => "generic"
  end.
Definition _SCHEMA (cls : pycls) : string := "NO SCHEMA".
Definition _VERSION (cls : pycls) : Z := 0.

(** What [getattr(obj, name)] can give for the attributes of a
    calibration. *)
Inductive attr :=
| AScalar (v : value)
| AMetadata (md : PropertyList)
| ASet (s : gset string)
| ADataIds (l : list dataId).

#[global] Instance attr_eq_dec : EqDecision attr.
Proof. solve_decision. Defined.

Class PyObject (T : Type) := {
  type_of : T → pycls;
  getattr : T → string → M attr;
}.

(** [x if x else None]. *)
Definition or_None (x : value) : value := if truthy x then x else VNone.

(** The message of a failed [(a, b) = parts]. *)
Definition unpack_error (expected got : nat) : exn :=
  if (expected <? got)%nat
  then ValueError ("too many values to unpack (expected " +:+ pretty expected +:+ ")")
  else ValueError ("not enough values to unpack (expected " +:+ pretty expected
                   +:+ ", got " +:+ pretty got +:+ ")").

(** A name that is bound neither locally nor at module level. *)
Definition unbound_name {A} (name : string) : M A := mthrow (NameError name).

(** An attribute that no class of the module defines. *)
Definition no_attribute {A} (name : string) : M A := mthrow (AttributeError name).

(** What a caller can pass for [camera] or [detector]: Python checks
    nothing at the call, so a scalar can arrive where an object is meant. *)
Inductive arg :=
| Value (v : value)
| CameraObj (camera : Camera.t)
| DetectorObj (detector : Detector.t).

(** [bool(a)]: the geometry objects are always true. *)
Definition arg_truthy (a : arg) : bool :=
  match a with
  | Value v => truthy v
  | CameraObj _ | DetectorObj _ => true
  end.

(** [a.getName()], [a.getSerial()] and [a.getId()]. *)
Definition call_getName (a : arg) : M string :=
  match a with
  | CameraObj camera => mret (Camera.getName camera)
  | DetectorObj detector => mret (Detector.getName detector)
  | Value _ => no_attribute "getName"
  end.
Definition call_getSerial (a : arg) : M string :=
  match a with
  | DetectorObj detector => mret (Detector.getSerial detector)
  | _ => no_attribute "getSerial"
  end.
Definition call_getId (a : arg) : M Z :=
  match a with
  | DetectorObj detector => mret (Detector.getId detector)
  | _ => no_attribute "getId"
  end.

(** ** [class IsrCalib(abc.ABC)] *)

Module IsrCalib.

(** The instance attributes that [IsrCalib.__init__] creates ([log] is not
    modelled).  [_metadata] is absent until [setMetadata] has run. *)
Record t := mk {
  __class__ : pycls;
  _instrument : value;
  _raftName : value;
  _slotName : value;
  _detectorName : value;
  _detectorSerial : value;
  _detectorId : value;
  _filter : value;
  _calibId : value;
  _metadata : option loc;
  _requiredAttributes : gset string;
}.

Definition set_instrument (v : value) (c : t) : t :=
  mk (__class__ c) v (_raftName c) (_slotName c) (_detectorName c) (_detectorSerial c)
     (_detectorId c) (_filter c) (_calibId c) (_metadata c) (_requiredAttributes c).
Definition set_raftName (v : value) (c : t) : t :=
  mk (__class__ c) (_instrument c) v (_slotName c) (_detectorName c) (_detectorSerial c)
     (_detectorId c) (_filter c) (_calibId c) (_metadata c) (_requiredAttributes c).
Definition set_slotName (v : value) (c : t) : t :=
  mk (__class__ c) (_instrument c) (_raftName c) v (_detectorName c) (_detectorSerial c)
     (_detectorId c) (_filter c) (_calibId c) (_metadata c) (_requiredAttributes c).
Definition set_detectorName (v : value) (c : t) : t :=
  mk (__class__ c) (_instrument c) (_raftName c) (_slotName c) v (_detectorSerial c)
     (_detectorId c) (_filter c) (_calibId c) (_metadata c) (_requiredAttributes c).
Definition set_detectorSerial (v : value) (c : t) : t :=
  mk (__class__ c) (_instrument c) (_raftName c) (_slotName c) (_detectorName c) v
     (_detectorId c) (_filter c) (_calibId c) (_metadata c) (_requiredAttributes c).
Definition set_detectorId (v : value) (c : t) : t :=
  mk (__class__ c) (_instrument c) (_raftName c) (_slotName c) (_detectorName c)
     (_detectorSerial c) v (_filter c) (_calibId c) (_metadata c) (_requiredAttributes c).
Definition set_filter (v : value) (c : t) : t :=
  mk (__class__ c) (_instrument c) (_raftName c) (_slotName c) (_detectorName c)
     (_detectorSerial c) (_detectorId c) v (_calibId c) (_metadata c) (_requiredAttributes c).
Definition set_calibId (v : value) (c : t) : t :=
  mk (__class__ c) (_instrument c) (_raftName c) (_slotName c) (_detectorName c)
     (_detectorSerial c) (_detectorId c) (_filter c) v (_metadata c) (_requiredAttributes c).
Definition set_metadata (l : option loc) (c : t) : t :=
  mk (__class__ c) (_instrument c) (_raftName c) (_slotName c) (_detectorName c)
     (_detectorSerial c) (_detectorId c) (_filter c) (_calibId c) l (_requiredAttributes c).
Definition set_requiredAttributes (s : gset string) (c : t) : t :=
  mk (__class__ c) (_instrument c) (_raftName c) (_slotName c) (_detectorName c)
     (_detectorSerial c) (_detectorId c) (_filter c) (_calibId c) (_metadata c) s.

(** An instance of class [cls] before any [__init__] has run. *)
Definition object_new (cls : pycls) : t :=
  mk cls VNone VNone VNone VNone VNone VNone VNone VNone None ∅.

(** What a subclass adds to [IsrCalib]: its own state around the base
    attributes, and the methods that [IsrCalib] calls through [self]. *)
Class Subclass (T : Type) := {
  super : T → t;
  set_super : t → T → T;
  virtual_fromDetector : T → arg → M T;
  virtual_updateMetadata :
    T → arg → arg → value → bool → bool → gmap string value → M T;
}.

(** [def getMetadata(self)]: [return self._metadata]. *)
Definition getMetadata (self : t) : M loc :=
  match _metadata self with
  | Some md => mret md
  | None => no_attribute "_metadata"
  end.

(** [self._metadata[key] = v]. *)
Definition metadata_setitem (self : t) (key : string) (v : value) : M unit :=
  md ← getMetadata self; md_setitem md key v.

(** [def setMetadata(self, metadata)]. *)
Definition setMetadata (self : t) (metadata : option loc) : M t :=
  self ← match metadata with
         | Some metadata => md ← copy_copy metadata; mret (set_metadata (Some md) self)
         | None => mret self
         end;
  let cls := __class__ self in
  metadata_setitem self "OBSTYPE" (VStr (_OBSTYPE cls));;
  metadata_setitem self (_OBSTYPE cls +:+ "_SCHEMA") (VStr (_SCHEMA cls));;
  metadata_setitem self (_OBSTYPE cls +:+ "_VERSION") (VInt (_VERSION cls));;
  mret self.

(** [def updateMetadata(self, camera=None, detector=None, filterName=None,
    setCalibId=False, setDate=False, **kwargs)]. *)
Definition updateMetadata (self : t) (camera detector : arg) (filterName : value)
    (setCalibId setDate : bool) (kwargs : gmap string value) : M t :=
  mdOriginal ← getMetadata self;
  let mdSupplemental : gmap string value := ∅ in
  self ← (if arg_truthy camera then
            name ← call_getName camera;
            mret (set_instrument (VStr name) self)
          else mret self);
  self ← (if arg_truthy detector then
            name ← call_getName detector;
            let self := set_detectorName (VStr name) self in
            serial ← call_getSerial detector;
            let self := set_detectorSerial (VStr serial) self in
            id ← call_getId detector;
            let self := set_detectorId (VInt id) self in
            if contains "_" name then
              match split "_" name with
              | [raftName; slotName] =>
                  mret (set_slotName (VStr slotName) (set_raftName (VStr raftName) self))
              | parts => mthrow (unpack_error 2 (length parts))
              end
            else mret self
          else mret self);
  let self := if truthy filterName then set_filter filterName self else self in
  self ← (if setCalibId then
            let values : list string := [] in
            let values := if truthy (_instrument self)
                          then values ++ ["instrument=" +:+ str (_instrument self)]
                          else values in
            let values := if truthy (_raftName self)
                          then values ++ ["raftName=" +:+ str (_raftName self)]
                          else values in
            let values := if truthy (_detectorName self)
                          then values ++ ["detectorName=" +:+ str (_detectorName self)]
                          else values in
            _detector ← no_attribute "_detector";
            values ← (if truthy _detector
                      then detector ← no_attribute "detector";
                           mret (values ++ ["detector=" +:+ str detector])
                      else mret values);
            let values := if truthy (_filter self)
                          then values ++ ["filter=" +:+ str (_filter self)]
                          else values in
            mret (set_calibId (VStr (join " " values)) self)
          else mret self);
  mdSupplemental ← (if setDate then
                      date ← datetime_now;
                      mret (<["CALIB_CREATION_TIME" := VStr (time_isoformat date)]>
                            (<["CALIB_CREATION_DATE" := VStr (date_isoformat date)]>
                             (<["CALIBDATE" := VStr (isoformat date)]> mdSupplemental)))
                    else mret mdSupplemental);
  metadata_setitem self "INSTRUME" (or_None (_instrument self));;
  metadata_setitem self "RAFTNAME" (or_None (_raftName self));;
  metadata_setitem self "SLOTNAME" (or_None (_slotName self));;
  metadata_setitem self "DETECTOR" (or_None (_detectorId self));;
  metadata_setitem self "DET_NAME" (or_None (_detectorName self));;
  metadata_setitem self "DET_SER" (or_None (_detectorSerial self));;
  metadata_setitem self "FILTER" (or_None (_filter self));;
  metadata_setitem self "CALIB_ID" (or_None (_calibId self));;
  let mdSupplemental := kwargs ∪ mdSupplemental in
  md_update mdOriginal mdSupplemental;;
  mret self.

(** [def fromDetector(self, detector)]: abstract. *)
Definition fromDetector {T} (self : T) (detector : arg) : M T :=
  mthrow (NotImplementedError "Must be implemented by subclass.").

(** [def __init__(self, camera=None, detector=None, detectorName=None,
    detectorId=None, log=None, **kwargs)], run on the new object [self] of
    a subclass [T]. *)
Definition __init__ {T} `{Subclass T} (self : T) (camera detector : arg)
    (detectorName detectorId : value) : M T :=
  let base := super self in
  let base := set_instrument VNone base in
  let base := set_raftName VNone base in
  let base := set_slotName VNone base in
  let base := set_detectorName detectorName base in
  let base := set_detectorSerial VNone base in
  let base := set_detectorId detectorId base in
  let base := set_filter VNone base in
  let base := set_calibId VNone base in
  empty ← PropertyList_new;
  base ← setMetadata base (Some empty);
  let base := set_requiredAttributes
    (list_to_set ["_OBSTYPE"; "_SCHEMA"; "_VERSION"]) base in
  let base := set_requiredAttributes
    (_requiredAttributes base ∪
     list_to_set ["_instrument"; "_raftName"; "_slotName"; "_detectorName";
                  "_detectorSerial"; "_detectorId"; "_filter"; "_calibId";
                  "_metadata"]) base in
  let self := set_super base self in
  self ← (if arg_truthy detector then virtual_fromDetector self detector
          else mret self);
  virtual_updateMetadata self camera detector VNone false false ∅.

(** Attribute lookup on an instance, for the attributes of the base
    class. *)
Definition __getattribute__ (self : t) (name : string) : M attr :=
  if bool_decide (name = "_OBSTYPE") then mret (AScalar (VStr (_OBSTYPE (__class__ self))))
  else if bool_decide (name = "_SCHEMA") then mret (AScalar (VStr (_SCHEMA (__class__ self))))
  else if bool_decide (name = "_VERSION") then mret (AScalar (VInt (_VERSION (__class__ self))))
  else if bool_decide (name = "_instrument") then mret (AScalar (_instrument self))
  else if bool_decide (name = "_raftName") then mret (AScalar (_raftName self))
  else if bool_decide (name = "_slotName") then mret (AScalar (_slotName self))
  else if bool_decide (name = "_detectorName") then mret (AScalar (_detectorName self))
  else if bool_decide (name = "_detectorSerial") then mret (AScalar (_detectorSerial self))
  else if bool_decide (name = "_detectorId") then mret (AScalar (_detectorId self))
  else if bool_decide (name = "_filter") then mret (AScalar (_filter self))
  else if bool_decide (name = "_calibId") then mret (AScalar (_calibId self))
  else if bool_decide (name = "_metadata") then
    md ← getMetadata self; contents ← md_read md; mret (AMetadata contents)
  else if bool_decide (name = "_requiredAttributes") || bool_decide (name = "requiredAttributes")
  then mret (ASet (_requiredAttributes self))
  else no_attribute name.

#[global] Instance object : PyObject t := {|
  type_of := __class__;
  getattr := __getattribute__;
|}.

#[global] Instance subclass : Subclass t := {|
  super self := self;
  set_super base _ := base;
  virtual_fromDetector := fromDetector;
  virtual_updateMetadata := updateMetadata;
|}.

(** A subclass that adds no state and implements [fromDetector]. *)
Definition implementing (fromDetector : t → arg → M t) : Subclass t := {|
  super self := self;
  set_super base _ := base;
  virtual_fromDetector := fromDetector;
  virtual_updateMetadata := updateMetadata;
|}.

(** The loop of [__eq__] over the required attributes. *)
Fixpoint eq_attrs {T U} `{PyObject T} `{PyObject U} (self : T) (other : U)
    (attrs : list string) : M bool :=
  match attrs with
  | [] => mret true
  | attr :: attrs =>
      a ← getattr self attr;
      b ← getattr other attr;
      if bool_decide (a ≠ b) then mret false else eq_attrs self other attrs
  end.

(** [def __eq__(self, other)]. *)
Definition __eq__ {T U} `{PyObject T} `{PyObject U} (self : T) (other : U) : M bool :=
  if negb (issubclass (type_of other) (type_of self)) then mret false
  else
    required ← getattr self "_requiredAttributes";
    match required with
    | ASet required => attrs ← iter_set required; eq_attrs self other attrs
    | _ => mthrow (TypeError "object is not iterable")
    end.

(** [def validate(self, other=None)]. *)
Definition validate (self : t) : bool := false.

(** *** Recovering the identity fields from a dictionary *)

(** An entry of the dictionary given to [calibInfoFromDict]: a scalar, or
    the nested mapping held under [metadata]. *)
Inductive entry :=
| Scalar (v : value)
| Mapping (m : gmap string value).

(** [haystack.get(x, None)]. *)
Definition get_or_None (haystack : gmap string entry) (x : string) : entry :=
  default (Scalar VNone) (haystack !! x).

(** The items when all of them are scalars. *)
Fixpoint scalars (items : list entry) : option (list value) :=
  match items with
  | [] => Some []
  | Scalar v :: items => cons v <$> scalars items
  | Mapping _ :: _ => None
  end.

(** [set(items)]: the distinct items; a mapping is not hashable. *)
Definition set_of (items : list entry) : result (list value) :=
  match scalars items with
  | Some vs => Ok (remove_dups vs)
  | None => Raise (TypeError "unhashable type: 'dict'")
  end.

(** [repr] of a list of strings, as an f-string interpolates it. *)
Definition repr_list (l : list string) : string :=
  "[" +:+ join ", " ((λ s, "'" +:+ s +:+ "'") <$> l) +:+ "]".

(** What [search] raises when it finds [n > 1] distinct values. *)
Definition too_many (n : nat) (needles : list string) : exn :=
  ValueError ("Too many values found: " +:+ pretty n +:+ " " +:+ repr_list needles).

(** The nested function [search(haystack, needles)] on a mapping of
    scalars, which has no mapping left to descend into. *)
Definition search_nested (haystack : gmap string value) (needles : list string)
    : result value :=
  let test := remove_dups ((λ x, default VNone (haystack !! x)) <$> needles) in
  if bool_decide (length test = 0) then
    match haystack !! "metadata" with
    | Some _ => Raise (AttributeError "get")
    | None => Ok VNone
    end
  else if bool_decide (length test = 1) then
    Raise (TypeError "'set' object is not subscriptable")
  else
    Raise (too_many (length test) needles).

(** The nested function [search(haystack, needles)]. *)
Definition search (haystack : gmap string entry) (needles : list string)
    : result value :=
  match set_of (get_or_None haystack <$> needles) with
  | Raise e => Raise e
  | Ok test =>
      if bool_decide (length test = 0) then
        match haystack !! "metadata" with
        | Some (Mapping metadata) => search_nested metadata needles
        | Some (Scalar _) => Raise (AttributeError "get")
        | None => Ok VNone
        end
      else if bool_decide (length test = 1) then
        Raise (TypeError "'set' object is not subscriptable")
      else
        Raise (too_many (length test) needles)
  end.

(** [metadata['OBSTYPE']]. *)
Definition metadata_OBSTYPE (metadata : entry) : result value :=
  match metadata with
  | Mapping m =>
      match m !! "OBSTYPE" with
      | Some v => Ok v
      | None => Raise (KeyError "OBSTYPE")
      end
  | Scalar _ => Raise (TypeError "object is not subscriptable")
  end.

(** [def calibInfoFromDict(self, dictionary)]. *)
Definition calibInfoFromDict (self : t) (dictionary : gmap string entry) : M t :=
  match dictionary !! "metadata" with
  | Some metadata =>
      found ← lift (metadata_OBSTYPE metadata);
      if bool_decide (VStr (_OBSTYPE (__class__ self)) ≠ found) then
        calib ← unbound_name "calib";
        mthrow (RuntimeError ("Incorrect calibration supplied.  Expected "
                              +:+ _OBSTYPE calib +:+ ", found " +:+ str found))
      else mret tt
  | None => mret tt
  end;;
  v ← lift (search dictionary ["INSTRUME"; "instrument"]);
  let self := set_instrument v self in
  v ← lift (search dictionary ["RAFTNAME"]);
  let self := set_raftName v self in
  v ← lift (search dictionary ["SLOTNAME"]);
  let self := set_slotName v self in
  v ← lift (search dictionary ["DETECTOR"; "detectorId"]);
  let self := set_detectorId v self in
  v ← lift (search dictionary ["DET_NAME"; "DETECTOR_NAME"; "detectorName"]);
  let self := set_detectorName v self in
  v ← lift (search dictionary ["DET_SER"; "DETECTOR_SERIAL"; "detectorSerial"]);
  let self := set_detectorSerial v self in
  v ← lift (search dictionary ["FILTER"]);
  let self := set_filter v self in
  v ← lift (search dictionary ["CALIB_ID"]);
  let self := set_calibId v self in
  if negb (truthy (_detectorId self)) && truthy (_detectorSerial self)
  then mret (set_detectorId (_detectorSerial self) self)
  else mret self.

(** *** Reading and writing

    The four conversion hooks are the subclass's; [D] is the type of its
    dictionaries.  The file system is passed explicitly. *)

Section persistence.
Context {T D : Type}.
Variable toDict : T → M (T * D).
Variable fromDict : D → M T.
Variable toTable : T → M (T * list Table).
Variable fromTable : list Table → M T.
(** [warnings.catch_warnings], of the standard library. *)
Variable catch_warnings : list value → M unit.


(** [def writeText(self, filename, format='auto')]; the result carries
    the object, the name used and the file system after the write. *)
Definition writeText (self : T) (filename format : string) (fs : filesystem D)
    : M (T * string * filesystem D) :=
  if bool_decide (format = "yaml")
     || (bool_decide (format = "auto")
         && endswith (lower filename) [".yaml"; ".YAML"]) then
    '(self, outDict) ← toDict self;
    let '(path, ext) := splitext filename in
    let filename := path +:+ ".yaml" in
    mret (self, filename, <[filename := YamlFile outDict]> fs)
  else if bool_decide (format = "ecsv")
          || (bool_decide (format = "auto")
              && endswith (lower filename) [".ecsv"; ".ECSV"]) then
    '(self, tableList) ← toTable self;
    if (1 <? length tableList)%nat then
      mthrow (RuntimeError ("Unable to persist " +:+ pretty (length tableList)
                            +:+ "tables in ECSV format."))
    else
      table ← match tableList !! 0%nat with
              | Some table => mret table
              | None => mthrow IndexError
              end;
      let '(path, ext) := splitext filename in
      let filename := path +:+ ".ecsv" in
      mret (self, filename, <[filename := EcsvFile table]> fs)
  else
    mthrow (RuntimeError ("Attempt to write to a file " +:+ filename
                          +:+ " that does not end in '.yaml' or '.ecsv'")).

(** [def readFits(cls, filename)]. *)
Definition readFits (filename : string) (fs : filesystem D) : M T :=
  let tableList : list Table := [] in
  table ← lift (Table_read_hdu fs filename 1);
  let tableList := tableList ++ [table] in
  let extNum := 2%nat in
  '(tableList, extNum) ←
    try_except
      (catch_warnings [VStr "error"];;
       newTable ← lift (Table_read_hdu fs filename extNum);
       mret (tableList ++ [newTable], S extNum))
      (λ _, mret (tableList, extNum));
  fromTable tableList.

(** [def writeFits(self, filename)]. *)
Definition writeFits (self : T) (filename : string) (fs : filesystem D)
    : M (T * string * filesystem D) :=
  '(self, tableList) ← toTable self;
  let astropyList := BinTableHDU <$> tableList in
  let astropyList := PrimaryHDU :: astropyList in
  mret (self, filename, <[filename := FitsFile astropyList]> fs).

End persistence.

(** The conversion hooks of the base class: all abstract. *)
Definition fromDict {T D} (dictionary : D) : M T :=
  mthrow (NotImplementedError "Must be implemented by subclass.").
Definition toDict {T D} (self : T) : M (T * D) :=
  mthrow (NotImplementedError "Must be implemented by subclass.").
Definition fromTable {T} (tableList : list Table) : M T :=
  mthrow (NotImplementedError "Must be implemented by subclass.").
Definition toTable {T} (self : T) : M (T * list Table) :=
  mthrow (NotImplementedError "Must be implemented by subclass.").

End IsrCalib.

(** ** [class IsrProvenance(IsrCalib)] *)

(** The dictionary that [IsrProvenance.toDict] builds and
    [IsrProvenance.fromDict] reads: one field per key, [None] for a key that
    is absent.  The value under [metadata] is either a property list (by
    reference) or a plain mapping such as a table's [meta]. *)
Module ProvenanceDict.

Inductive mapping :=
| Ref (md : loc)
| Dict (m : gmap string value).

Record t := {
  metadata : option mapping;
  detectorName : option value;
  detectorSerial : option value;
  instrument : option value;
  calibType : option value;
  dimensions : option (list string);
  dataIdList : option (list dataId);
}.

(** The entries of a mapping, as [**m] and [m.get] see them. *)
Definition entries (m : mapping) : M (gmap string value) :=
  match m with
  | Ref md => md_read md
  | Dict m => mret m
  end.

(** [dictionary[key]]. *)
Definition getitem {A} (key : string) (field : option A) : M A :=
  match field with
  | Some a => mret a
  | None => mthrow (KeyError key)
  end.

End ProvenanceDict.

Module IsrProvenance.

Record t := mk {
  super : IsrCalib.t;
  calibType : value;
  dimensions : gset string;
  dataIdList : list dataId;
}.

Definition set_super (base : IsrCalib.t) (p : t) : t :=
  mk base (calibType p) (dimensions p) (dataIdList p).
Definition set_calibType (v : value) (p : t) : t :=
  mk (super p) v (dimensions p) (dataIdList p).
Definition set_dimensions (s : gset string) (p : t) : t :=
  mk (super p) (calibType p) s (dataIdList p).
Definition set_dataIdList (l : list dataId) (p : t) : t :=
  mk (super p) (calibType p) (dimensions p) l.

(** [def updateMetadata(self, setDate=False, **kwargs)]: [camera],
    [detector], [filterName] and [setCalibId] are the keywords that the
    base method takes out of [**kwargs]. *)
Definition updateMetadata (self : t) (camera detector : arg) (filterName : value)
    (setCalibId setDate : bool) (kwargs : gmap string value) : M t :=
  let kwargs := <["calibType" := calibType self]> kwargs in
  base ← IsrCalib.updateMetadata (super self) camera detector filterName
           setCalibId setDate kwargs;
  mret (set_super base self).

(** [self.updateMetadata(setDate=setDate, **mapping)]: a key of [mapping]
    that names a parameter of the method is bound to that parameter, and
    [setDate] is then given twice. *)
Definition updateMetadata_unpack (self : t) (setDate : bool)
    (mapping : gmap string value) : M t :=
  if bool_decide (is_Some (mapping !! "setDate")) then
    mthrow (TypeError "updateMetadata() got multiple values for keyword argument 'setDate'")
  else
    updateMetadata self
      (Value (default VNone (mapping !! "camera")))
      (Value (default VNone (mapping !! "detector")))
      (default VNone (mapping !! "filterName"))
      (truthy (default VNone (mapping !! "setCalibId")))
      setDate
      (delete "camera" (delete "detector" (delete "filterName"
         (delete "setCalibId" mapping)))).

#[global] Instance subclass : IsrCalib.Subclass t := {|
  IsrCalib.super := super;
  IsrCalib.set_super := set_super;
  IsrCalib.virtual_fromDetector := IsrCalib.fromDetector;
  IsrCalib.virtual_updateMetadata := updateMetadata;
|}.

(** [def __init__(self, calibType="unknown", **kwargs)]. *)
Definition __init__ (calibType : value) (camera detector : arg)
    (detectorName detectorId : value) : M t :=
  let self := mk (IsrCalib.object_new IsrProvenanceCls) calibType ∅ [] in
  self ← IsrCalib.__init__ self camera detector detectorName detectorId;
  let required := IsrCalib._requiredAttributes (super self) ∪
                  list_to_set ["calibType"; "dimensions"; "dataIdList"] in
  mret (set_super (IsrCalib.set_requiredAttributes required (super self)) self).

(** Attribute lookup on an instance. *)
Definition __getattribute__ (self : t) (name : string) : M attr :=
  if bool_decide (name = "calibType") then mret (AScalar (calibType self))
  else if bool_decide (name = "dimensions") then mret (ASet (dimensions self))
  else if bool_decide (name = "dataIdList") then mret (ADataIds (dataIdList self))
  else IsrCalib.__getattribute__ (super self) name.

#[global] Instance object : PyObject t := {|
  type_of self := IsrCalib.__class__ (super self);
  getattr := __getattribute__;
|}.

(** [def __eq__(self, other)]: [return super().__eq__(other)]. *)
Definition __eq__ {U} `{PyObject U} (self : t) (other : U) : M bool :=
  IsrCalib.__eq__ self other.

(** The inner loop of [fromDataIds]: [for key in dataId]. *)
Definition add_keys (dimensions : gset string) (keys : list string) : gset string :=
  foldl (λ dimensions key,
           if bool_decide (key ∉ dimensions) then {[key]} ∪ dimensions
           else dimensions)
        dimensions keys.

(** [def fromDataIds(self, dataIdList)]. *)
Definition fromDataIds (self : t) (dataIdList : list dataId) : t :=
  foldl (λ self dataId,
           let self := set_dimensions
                         (add_keys (dimensions self) (elements (dom dataId))) self in
           set_dataIdList (IsrProvenance.dataIdList self ++ [dataId]) self)
        self dataIdList.

(** [sorted(names)]. *)
Definition sorted (names : list string) : list string :=
  merge_sort String.le names.

(** The first loop of [fromTable]: [for colName in table.columns]. *)
Definition read_columns (columns : list string) : gmap string string * gset string :=
  foldl (λ '(schema, dimensions) colName,
           (<[lower colName := colName]> schema, {[lower colName]} ∪ dimensions))
        (∅, ∅) columns.

(** [schema[dim]]. *)
Definition schema_get (schema : gmap string string) (dim : string) : result string :=
  match schema !! dim with
  | Some colName => Ok colName
  | None => Raise (KeyError dim)
  end.

(** The inner loop of [fromTable]: [for dim in sorted(...)] fills
    [entry]. *)
Fixpoint read_row (schema : gmap string string) (row : dataId) (dims : list string)
    (entry : dataId) : result dataId :=
  match dims with
  | [] => Ok entry
  | dim :: dims =>
      match schema_get schema dim with
      | Ok colName =>
          match row_get row colName with
          | Ok v => read_row schema row dims (<[dim := v]> entry)
          | Raise e => Raise e
          end
      | Raise e => Raise e
      end
  end.

(** The outer loop of [fromTable]: [for row in table]. *)
Fixpoint read_rows (schema : gmap string string) (dims : list string)
    (rows : list dataId) (dataIdList : list dataId) : result (list dataId) :=
  match rows with
  | [] => Ok dataIdList
  | row :: rows =>
      match read_row schema row (sorted dims) ∅ with
      | Ok entry => read_rows schema dims rows (dataIdList ++ [entry])
      | Raise e => Raise e
      end
  end.

(** [def fromDict(cls, dictionary)]. *)
Definition fromDict (dictionary : ProvenanceDict.t) : M t :=
  calib ← __init__ (VStr "unknown") (Value VNone) (Value VNone) VNone VNone;
  metadata ← ProvenanceDict.getitem "metadata" (ProvenanceDict.metadata dictionary);
  kwargs ← ProvenanceDict.entries metadata;
  calib ← updateMetadata_unpack calib false kwargs;
  metadata ← ProvenanceDict.getitem "metadata" (ProvenanceDict.metadata dictionary);
  md ← ProvenanceDict.entries metadata;
  let base := super calib in
  let base := IsrCalib.set_detectorName
    (default (default VNone (md !! "DET_NAME"))
             (ProvenanceDict.detectorName dictionary)) base in
  let base := IsrCalib.set_detectorSerial
    (default (default VNone (md !! "DET_SER"))
             (ProvenanceDict.detectorSerial dictionary)) base in
  let base := IsrCalib.set_instrument
    (default (default VNone (md !! "INSTRUME"))
             (ProvenanceDict.instrument dictionary)) base in
  let calib := set_super base calib in
  calibType ← ProvenanceDict.getitem "calibType" (ProvenanceDict.calibType dictionary);
  let calib := set_calibType calibType calib in
  dimensions ← ProvenanceDict.getitem "dimensions" (ProvenanceDict.dimensions dictionary);
  let calib := set_dimensions (list_to_set dimensions) calib in
  dataIdList ← ProvenanceDict.getitem "dataIdList" (ProvenanceDict.dataIdList dictionary);
  let calib := set_dataIdList dataIdList calib in
  updateMetadata calib (Value VNone) (Value VNone) VNone false false ∅.

(** [def fromTable(cls, tableList)]. *)
Definition fromTable (tableList : list Table) : M t :=
  table ← match tableList !! 0%nat with
          | Some table => mret table
          | None => mthrow IndexError
          end;
  let metadata := meta table in
  calibType ← match metadata !! "calibType" with
              | Some v => mret v
              | None => mthrow (KeyError "calibType")
              end;
  let '(schema, dimensions) := read_columns (columns table) in
  dimensions ← iter_set dimensions;
  let dimensions := sorted dimensions in
  dataIdList ← lift (read_rows schema dimensions (rows table) []);
  fromDict {|
    ProvenanceDict.metadata := Some (ProvenanceDict.Dict metadata);
    ProvenanceDict.detectorName := Some (default VNone (metadata !! "DET_NAME"));
    ProvenanceDict.detectorSerial := Some (default VNone (metadata !! "DET_SER"));
    ProvenanceDict.instrument := Some (default VNone (metadata !! "INSTRUME"));
    ProvenanceDict.calibType := Some calibType;
    ProvenanceDict.dimensions := Some dimensions;
    ProvenanceDict.dataIdList := Some dataIdList;
  |}.

(** [def toDict(self)]. *)
Definition toDict (self : t) : M (t * ProvenanceDict.t) :=
  self ← updateMetadata self (Value VNone) (Value VNone) VNone false true ∅;
  metadata ← IsrCalib.getMetadata (super self);
  dimensions ← iter_set (dimensions self);
  mret (self, {|
    ProvenanceDict.metadata := Some (ProvenanceDict.Ref metadata);
    ProvenanceDict.detectorName := Some (IsrCalib._detectorName (super self));
    ProvenanceDict.detectorSerial := Some (IsrCalib._detectorSerial (super self));
    ProvenanceDict.instrument := Some (IsrCalib._instrument (super self));
    ProvenanceDict.calibType := Some (calibType self);
    ProvenanceDict.dimensions := Some dimensions;
    ProvenanceDict.dataIdList := Some (dataIdList self);
  |}).

(** [def toTable(self)]. *)
Definition toTable (self : t) : M (t * list Table) :=
  let tableList : list Table := [] in
  self ← updateMetadata self (Value VNone) (Value VNone) VNone false true ∅;
  names ← iter_set (dimensions self);
  catalog ← lift (Table_new (dataIdList self) names);
  metadata ← IsrCalib.getMetadata (super self);
  contents ← md_read metadata;
  let filteredMetadata := filter (λ kv, kv.2 ≠ VNone) contents in
  let catalog := with_meta filteredMetadata catalog in
  mret (self, tableList ++ [catalog]).

End IsrProvenance.

(** ** Running a computation *)

(** The outcome of a computation, without the final state. *)
Definition run {A} (m : M A) (w : world) : result A :=
  match m w with
  | Ok (a, _) => Ok a
  | Raise e => Raise e
  end.

(** The state a computation ends in. *)
Definition exec {A} (m : M A) (w : world) : option world :=
  match m w with
  | Ok (_, w') => Some w'
  | Raise _ => None
  end.

(** A start state for the examples: empty heap, a clock that stands still,
    sets enumerated in the order of [elements]. *)
Definition epoch : datetime := {|
  isoformat := "2020-06-01T12:00:00";
  date_isoformat := "2020-06-01";
  time_isoformat := "12:00:00";
|}.

Definition world0 : world := {|
  heap := ∅;
  clock := λ _, epoch;
  ticks := 0;
  set_iter := elements;
  set_iter_perm := λ s, Permutation_refl (elements s);
|}.

(** ** Auxiliary definitions for the statements *)

(** The eight identity keys as [updateMetadata] writes them. *)
Definition sync (self : IsrCalib.t) (m : PropertyList) : PropertyList :=
  <["CALIB_ID" := or_None (IsrCalib._calibId self)]>
  (<["FILTER" := or_None (IsrCalib._filter self)]>
  (<["DET_SER" := or_None (IsrCalib._detectorSerial self)]>
  (<["DET_NAME" := or_None (IsrCalib._detectorName self)]>
  (<["DETECTOR" := or_None (IsrCalib._detectorId self)]>
  (<["SLOTNAME" := or_None (IsrCalib._slotName self)]>
  (<["RAFTNAME" := or_None (IsrCalib._raftName self)]>
  (<["INSTRUME" := or_None (IsrCalib._instrument self)]> m))))))).

(** The three creation-date keys for a clock reading. *)
Definition date_entries (date : datetime) : PropertyList :=
  <["CALIB_CREATION_TIME" := VStr (time_isoformat date)]>
  (<["CALIB_CREATION_DATE" := VStr (date_isoformat date)]>
  (<["CALIBDATE" := VStr (isoformat date)]> ∅)).

(** An optional camera as the argument of a call. *)
Definition camera_arg (camera : option Camera.t) : arg :=
  from_option CameraObj (Value VNone) camera.

(** The union of the keys of a list of data ids. *)
Definition all_keys (dataIdList : list dataId) : gset string :=
  ⋃ (dom <$> dataIdList).

(** The attributes that [IsrProvenance.__init__] leaves in
    [requiredAttributes]. *)
Definition provenance_attributes : gset string :=
  list_to_set ["_OBSTYPE"; "_SCHEMA"; "_VERSION"] ∪
  list_to_set ["_instrument"; "_raftName"; "_slotName"; "_detectorName";
               "_detectorSerial"; "_detectorId"; "_filter"; "_calibId"; "_metadata"] ∪
  list_to_set ["calibType"; "dimensions"; "dataIdList"].

(** The three keys that [setMetadata] forces, for class [cls]. *)
Definition class_entries (cls : pycls) (m : PropertyList) : PropertyList :=
  <[_OBSTYPE cls +:+ "_VERSION" := VInt (_VERSION cls)]>
  (<[_OBSTYPE cls +:+ "_SCHEMA" := VStr (_SCHEMA cls)]>
  (<["OBSTYPE" := VStr (_OBSTYPE cls)]> m)).

(** The names of the parameters of [updateMetadata], which a mapping
    unpacked into its keywords must not use as keys. *)
Definition parameter_names : list string :=
  ["camera"; "detector"; "filterName"; "setCalibId"; "setDate"].

(** The base attributes of a provenance built without camera and detector. *)
Definition new_base (detectorName detectorId : value) (md : loc) : IsrCalib.t :=
  IsrCalib.mk IsrProvenanceCls VNone VNone VNone detectorName VNone detectorId VNone VNone
    (Some md) provenance_attributes.

(** The value of attribute [name] of a provenance whose metadata holds
    [m]; [None] when it has no such attribute. *)
Definition attr_of (self : IsrProvenance.t) (m : PropertyList) (name : string)
    : option attr :=
  let base := IsrProvenance.super self in
  if bool_decide (name = "calibType") then Some (AScalar (IsrProvenance.calibType self))
  else if bool_decide (name = "dimensions") then Some (ASet (IsrProvenance.dimensions self))
  else if bool_decide (name = "dataIdList") then Some (ADataIds (IsrProvenance.dataIdList self))
  else if bool_decide (name = "_OBSTYPE")
       then Some (AScalar (VStr (_OBSTYPE (IsrCalib.__class__ base))))
  else if bool_decide (name = "_SCHEMA")
       then Some (AScalar (VStr (_SCHEMA (IsrCalib.__class__ base))))
  else if bool_decide (name = "_VERSION")
       then Some (AScalar (VInt (_VERSION (IsrCalib.__class__ base))))
  else if bool_decide (name = "_instrument") then Some (AScalar (IsrCalib._instrument base))
  else if bool_decide (name = "_raftName") then Some (AScalar (IsrCalib._raftName base))
  else if bool_decide (name = "_slotName") then Some (AScalar (IsrCalib._slotName base))
  else if bool_decide (name = "_detectorName")
       then Some (AScalar (IsrCalib._detectorName base))
  else if bool_decide (name = "_detectorSerial")
       then Some (AScalar (IsrCalib._detectorSerial base))
  else if bool_decide (name = "_detectorId") then Some (AScalar (IsrCalib._detectorId base))
  else if bool_decide (name = "_filter") then Some (AScalar (IsrCalib._filter base))
  else if bool_decide (name = "_calibId") then Some (AScalar (IsrCalib._calibId base))
  else if bool_decide (name = "_metadata") then Some (AMetadata m)
  else if bool_decide (name = "_requiredAttributes")
          || bool_decide (name = "requiredAttributes")
       then Some (ASet (IsrCalib._requiredAttributes base))
  else None.

(** The equivalence that [__eq__] decides between two provenances whose
    metadata hold [m1] and [m2]: every required attribute is equal. *)
Definition equivalent (p1 : IsrProvenance.t) (m1 : PropertyList)
    (p2 : IsrProvenance.t) (m2 : PropertyList) : Prop :=
  let b1 := IsrProvenance.super p1 in
  let b2 := IsrProvenance.super p2 in
  IsrCalib.__class__ b1 = IsrCalib.__class__ b2
  ∧ IsrCalib._instrument b1 = IsrCalib._instrument b2
  ∧ IsrCalib._raftName b1 = IsrCalib._raftName b2
  ∧ IsrCalib._slotName b1 = IsrCalib._slotName b2
  ∧ IsrCalib._detectorName b1 = IsrCalib._detectorName b2
  ∧ IsrCalib._detectorSerial b1 = IsrCalib._detectorSerial b2
  ∧ IsrCalib._detectorId b1 = IsrCalib._detectorId b2
  ∧ IsrCalib._filter b1 = IsrCalib._filter b2
  ∧ IsrCalib._calibId b1 = IsrCalib._calibId b2
  ∧ m1 = m2
  ∧ IsrProvenance.calibType p1 = IsrProvenance.calibType p2
  ∧ IsrProvenance.dimensions p1 = IsrProvenance.dimensions p2
  ∧ IsrProvenance.dataIdList p1 = IsrProvenance.dataIdList p2.

#[global] Instance equivalent_dec p1 m1 p2 m2 : Decision (equivalent p1 m1 p2 m2).
Proof. unfold equivalent. apply _. Defined.

(** A provenance as [IsrProvenance.__init__] and the methods leave it: of
    class [IsrProvenance], with its metadata on the heap, and with the
    required attributes of the class. *)
Definition well_formed (self : IsrProvenance.t) (md : loc) (m : PropertyList)
    (w : world) : Prop :=
  IsrCalib.__class__ (IsrProvenance.super self) = IsrProvenanceCls
  ∧ IsrCalib._metadata (IsrProvenance.super self) = Some md
  ∧ heap w !! md = Some m
  ∧ IsrCalib._requiredAttributes (IsrProvenance.super self) = provenance_attributes.

(** The metadata of [self] after [toDict] or [toTable] has run at time
    [date], [m] being the metadata before. *)
Definition stamped (self : IsrProvenance.t) (m : PropertyList) (date : datetime)
    : PropertyList :=
  (<["calibType" := IsrProvenance.calibType self]> ∅ ∪ date_entries date)
  ∪ sync (IsrProvenance.super self) m.

(** The entries of a mapping of a dictionary, given the heap. *)
Definition contents_in (h : gmap loc PropertyList) (mp : ProvenanceDict.mapping)
    : option PropertyList :=
  match mp with
  | ProvenanceDict.Ref md => h !! md
  | ProvenanceDict.Dict m => Some m
  end.

(** The metadata of a new provenance: what [IsrProvenance()] leaves. *)
Definition initial_metadata : PropertyList :=
  <["calibType" := VStr "unknown"]>
    (sync (new_base VNone VNone 1%positive) (class_entries IsrProvenanceCls ∅)).

(** The metadata that [fromDict] leaves in the provenance with base
    attributes [base] and calibration type [calibType], built from the
    mapping [km]. *)
Definition restored_metadata (km : PropertyList) (base : IsrCalib.t) (calibType : value)
    : PropertyList :=
  <["calibType" := calibType]>
    (sync base (<["calibType" := VStr "unknown"]> km
                ∪ sync (new_base VNone VNone 1%positive) initial_metadata)).

(** The keys that [toDict] and [toTable] write anew from the attributes
    and the clock, whatever the metadata held under them. *)
Definition synchronized_keys : list string :=
  ["calibType"; "CALIBDATE"; "CALIB_CREATION_DATE"; "CALIB_CREATION_TIME";
   "INSTRUME"; "RAFTNAME"; "SLOTNAME"; "DETECTOR"; "DET_NAME"; "DET_SER"; "FILTER";
   "CALIB_ID"].

(** The metadata of a dictionary, read at the time of the call. *)
Definition dictionary_metadata (dictionary : ProvenanceDict.t) : M PropertyList :=
  mp ← ProvenanceDict.getitem "metadata" (ProvenanceDict.metadata dictionary);
  ProvenanceDict.entries mp.


(** An identity attribute that is [None] or true: the metadata holds such a
    value unchanged. *)
Definition unset_or_true (v : value) : Prop := or_None v = v.

#[global] Instance unset_or_true_dec v : Decision (unset_or_true v).
Proof. unfold unset_or_true. apply _. Defined.

(** The attributes that [IsrCalib.__init__] leaves in
    [requiredAttributes]. *)
Definition calib_attributes : gset string :=
  list_to_set ["_OBSTYPE"; "_SCHEMA"; "_VERSION"] ∪
  list_to_set ["_instrument"; "_raftName"; "_slotName"; "_detectorName";
               "_detectorSerial"; "_detectorId"; "_filter"; "_calibId"; "_metadata"].

(** * Properties *)

(** ** Strings *)

Example split_one_underscore : split "_" "R22_S11" = ["R22"; "S11"].
Proof. reflexivity. Qed.

Example split_two_underscores : split "_" "R22_S11_X" = ["R22"; "S11"; "X"].
Proof. reflexivity. Qed.

Example split_leading_underscore : split "_" "_a" = [""; "a"].
Proof. reflexivity. Qed.

Example splitext_upper : splitext "dir.d/cal.YAML" = ("dir.d/cal", ".YAML").
Proof. vm_compute. reflexivity. Qed.

Example splitext_dotfile : splitext ".yaml" = (".yaml", "").
Proof. vm_compute. reflexivity. Qed.

Example splitext_leading_dots : splitext "a/..b.c" = ("a/..b", ".c").
Proof. vm_compute. reflexivity. Qed.

Example splitext_dot_in_directory : splitext "a.b/cal" = ("a.b/cal", "").
Proof. vm_compute. reflexivity. Qed.

Example lower_mixed : lower "Cal.YAML" = "cal.yaml".
Proof. vm_compute. reflexivity. Qed.

Example str_negative : str (VInt (-12)) = "-12".
Proof. vm_compute. reflexivity. Qed.



Lemma length_split (sep : ascii) (s : string) :
  length (split sep s) = S (count_char sep s).
Proof.
  induction s as [|a s IH]; simpl; [done|].
  case_bool_decide; simpl; [by rewrite IH|].
  destruct (split sep s); simpl in *; lia.
Qed.

Lemma contains_count (c : ascii) (s : string) :
  contains c s = true ↔ 0 < count_char c s.
Proof.
  induction s as [|a s IH]; simpl; [split; [done|lia]|].
  case_bool_decide; simpl; [split; [lia|done]|]. done.
Qed.

(** Joining what [split] gives with the separator restores the string. *)
Lemma join_split (sep : ascii) (s : string) :
  join (String sep "") (split sep s) = s.
Proof.
  induction s as [|a s IH]; simpl; [done|].
  case_bool_decide as Ha; simpl.
  - subst. destruct (split sep s) eqn:E; simpl in *.
    + pose proof (length_split sep s) as L. rewrite E in L. done.
    + by rewrite IH.
  - destruct (split sep s) as [|p ps] eqn:E; simpl in *.
    + pose proof (length_split sep s) as L. rewrite E in L. done.
    + destruct ps; simpl in *; by rewrite <- IH.
Qed.

(** ** The monad

    Unfolding the monad so that a computation applied to a state reduces. *)
Ltac unfold_monad :=
  unfold mbind, M_bind, mret, M_ret, mthrow, M_throw, lift, try_except,
    no_attribute, unbound_name in *.

Lemma bind_raises {A B} (m : M A) (f : A → M B) (w : world) :
  (∀ a w', m w = Ok (a, w') → raises (f a w') = true) →
  raises ((m ≫= f) w) = true.
Proof.
  intros Hf. unfold mbind, M_bind.
  destruct (m w) as [[a w']|e] eqn:E; [by apply Hf|done].
Qed.

Lemma bind_raises_l {A B} (m : M A) (f : A → M B) (w : world) :
  raises (m w) = true → raises ((m ≫= f) w) = true.
Proof. unfold mbind, M_bind. by destruct (m w) as [[a w']|e]. Qed.

(** ** [updateMetadata]: the calib-id *)

(** C7 (as the code has it): whenever [setCalibId] is true, [updateMetadata]
    raises instead of returning.  When nothing fails earlier, the assembly
    of the calib-id stops at the detector entry, which reads the attribute
    [_detector] that no calibration has; [_calibId] is never assigned. *)
Theorem updateMetadata_setCalibId_raises (self : IsrCalib.t) (camera detector : arg)
    (filterName : value) (setDate : bool) (kwargs : gmap string value) (w : world) :
  raises (IsrCalib.updateMetadata self camera detector filterName true setDate kwargs w)
  = true.
Proof.
  unfold IsrCalib.updateMetadata.
  apply bind_raises; intros mdOriginal w1 _.
  apply bind_raises; intros self1 w2 _.
  apply bind_raises; intros self2 w3 _.
  do 2 apply bind_raises_l. done.
Qed.


Example provenance_setCalibId :
  run (calib ← IsrProvenance.__init__ (VStr "flat") (Value VNone) (Value VNone) VNone VNone;
       IsrProvenance.updateMetadata calib (Value VNone) (Value VNone) VNone true false ∅)
      world0
  = Raise (AttributeError "_detector").
Proof. vm_compute. reflexivity. Qed.

(** ** [calibInfoFromDict] *)

(** The set that [search] builds from the two aliases of the instrument is
    never empty. *)
Lemma remove_dups_two (a b : value) :
  length (remove_dups [a; b]) = 1 ∨ length (remove_dups [a; b]) = 2.
Proof.
  simpl. destruct (decide_rel elem_of a [b]); [by left | by right].
Qed.

Lemma search_instrument_raises (haystack : gmap string IsrCalib.entry) :
  raises (IsrCalib.search haystack ["INSTRUME"; "instrument"]) = true.
Proof.
  unfold IsrCalib.search, IsrCalib.set_of. simpl.
  destruct (IsrCalib.get_or_None haystack "INSTRUME") as [a|]; [|done].
  destruct (IsrCalib.get_or_None haystack "instrument") as [b|]; [|done].
  simpl. 
  destruct (remove_dups_two a b) as [E|E]; simpl in E; rewrite E; done.
Qed.

(** C5 (as the code has it): [calibInfoFromDict] never returns normally.
    The nested [search] counts [None] as a value and subscripts a set, so
    it raises whatever the dictionary holds; a dictionary with only
    [INSTRUME="A"] gets the ambiguity error for two values, one whose two
    aliases agree gets a [TypeError], and so does one that has the
    instrument under [metadata] only: the nested mapping is never
    searched. *)
Theorem calibInfoFromDict_raises :
  (∀ (self : IsrCalib.t) (dictionary : gmap string IsrCalib.entry) (w : world),
     raises (IsrCalib.calibInfoFromDict self dictionary w) = true)
  ∧ IsrCalib.search {[ "INSTRUME" := IsrCalib.Scalar (VStr "A") ]}
      ["INSTRUME"; "instrument"]
    = Raise (ValueError "Too many values found: 2 ['INSTRUME', 'instrument']")
  ∧ IsrCalib.search {[ "INSTRUME" := IsrCalib.Scalar (VStr "A");
                       "instrument" := IsrCalib.Scalar (VStr "A") ]}
      ["INSTRUME"; "instrument"]
    = Raise (TypeError "'set' object is not subscriptable")
  ∧ IsrCalib.search {[ "INSTRUME" := IsrCalib.Scalar (VStr "A");
                       "instrument" := IsrCalib.Scalar (VStr "B") ]}
      ["INSTRUME"; "instrument"]
    = Raise (ValueError "Too many values found: 2 ['INSTRUME', 'instrument']")
  ∧ IsrCalib.search {[ "metadata" := IsrCalib.Mapping {[ "INSTRUME" := VStr "A" ]} ]}
      ["INSTRUME"; "instrument"]
    = Raise (TypeError "'set' object is not subscriptable").
Proof.
  split; [|by vm_compute].
  intros self dictionary w. unfold IsrCalib.calibInfoFromDict.
  apply bind_raises; intros _ w1 _.
  apply bind_raises_l. unfold lift.
  pose proof (search_instrument_raises dictionary) as H.
  by destruct (IsrCalib.search dictionary ["INSTRUME"; "instrument"]).
Qed.

(** C8 (as the code has it): a nested [metadata] whose [OBSTYPE] differs
    from the class's makes [calibInfoFromDict] raise [NameError] for the
    unbound name [calib] while it formats the message; the [RuntimeError]
    that would name both values is never built. *)
Theorem calibInfoFromDict_obstype_mismatch (self : IsrCalib.t)
    (dictionary : gmap string IsrCalib.entry) (metadata : gmap string value)
    (found : value) (w : world) :
  dictionary !! "metadata" = Some (IsrCalib.Mapping metadata) →
  metadata !! "OBSTYPE" = Some found →
  found ≠ VStr (_OBSTYPE (IsrCalib.__class__ self)) →
  IsrCalib.calibInfoFromDict self dictionary w = Raise (NameError "calib").
Proof.
  intros Hmd Hobs Hne. unfold IsrCalib.calibInfoFromDict. rewrite Hmd.
  unfold IsrCalib.metadata_OBSTYPE. rewrite Hobs.
  unfold_monad. rewrite bool_decide_eq_true_2 by congruence. done.
Qed.

Lemma calibInfoFromDict_obstype_mismatch_witness :
  IsrCalib.calibInfoFromDict (IsrCalib.object_new IsrProvenanceCls)
    {[ "metadata" := IsrCalib.Mapping {[ "OBSTYPE" := VStr "BIAS" ]} ]} world0
  = Raise (NameError "calib").
Proof.
  apply (calibInfoFromDict_obstype_mismatch _ _ {[ "OBSTYPE" := VStr "BIAS" ]} (VStr "BIAS"));
    [reflexivity | reflexivity | done].
Defined.

(** ** Text and FITS persistence *)

Section persistence.
Context {T D : Type}.
Variable toDict : T → M (T * D).
Variable fromDict : D → M T.
Variable toTable : T → M (T * list Table).
Variable fromTable : list Table → M T.






End persistence.


Example writeText_txt_refused :
  IsrCalib.writeText (T:=unit) (D:=nat) (λ s, mret (s, 7)) (λ s, mret (s, []))
    tt "cal.txt" "auto" ∅ world0
  = Raise (RuntimeError
      "Attempt to write to a file cal.txt that does not end in '.yaml' or '.ecsv'").
Proof. reflexivity. Qed.

Section fits.
Context {T D : Type}.
Variable fromTable : list Table → M T.

(** What [writeFits] stores for the tables of [toTable]. *)
Lemma writeFits_spec (toTable : T → M (T * list Table)) (self self' : T)
    (tableList : list Table) (filename : string) (fs : filesystem D) (w w' : world) :
  toTable self w = Ok ((self', tableList), w') →
  IsrCalib.writeFits toTable self filename fs w
  = Ok ((self', filename,
         <[filename := FitsFile (PrimaryHDU :: (BinTableHDU <$> tableList))]> fs), w').
Proof. intros H. unfold IsrCalib.writeFits. unfold_monad. by rewrite H. Qed.

(** Whatever the context manager does, [readFits] goes through its
    [try] block once: it never hands more than two tables to
    [fromTable]. *)
Lemma readFits_at_most_two (catch_warnings : list value → M unit)
    (filename : string) (fs : filesystem D) (w : world) :
  raises (Table_read_hdu fs filename 1) = true
  ∨ ∃ tableList w',
      IsrCalib.readFits fromTable catch_warnings filename fs w = fromTable tableList w'
      ∧ length tableList ≤ 2.
Proof.
  unfold IsrCalib.readFits.
  destruct (Table_read_hdu fs filename 1) as [t1|e] eqn:E1; [right|by left].
  unfold_monad. simpl.
  destruct (catch_warnings [VStr "error"] w) as [[[] w1]|e].
  - destruct (Table_read_hdu fs filename 2) as [t2|e]; eauto.
  - eauto.
Qed.

(** C4 (as the code has it): a file that [writeFits] wrote from two or
    more tables is read back by [readFits] as its first table alone.  The
    [try] block is not in a loop, and the call
    [warnings.catch_warnings("error")] in it raises [TypeError], which
    the [except] clause takes for the end of the file. *)
Theorem readFits_after_writeFits (self : T) (t1 t2 : Table) (more : list Table)
    (filename : string) (fs : filesystem D) (w : world) :
  let toTable := λ self : T, mret (self, t1 :: t2 :: more) in
  ∃ fs',
    IsrCalib.writeFits toTable self filename fs w = Ok ((self, filename, fs'), w)
    ∧ IsrCalib.readFits fromTable Warnings.catch_warnings filename fs' w
      = fromTable [t1] w.
Proof.
  intros toTable.
  exists (<[filename := FitsFile (PrimaryHDU :: (BinTableHDU <$> t1 :: t2 :: more))]> fs).
  split; [by apply writeFits_spec|].
  unfold IsrCalib.readFits, Table_read_hdu. rewrite lookup_insert_eq. reflexivity.
Qed.

End fits.
(** ** Symbolic execution of the metadata updates *)

Lemma md_read_ok (w : world) (md : loc) (m : PropertyList) :
  heap w !! md = Some m → md_read md w = Ok (m, w).
Proof. intros H. unfold md_read. by rewrite H. Qed.

Lemma md_setitem_ok (w : world) (md : loc) (m : PropertyList) (k : string) (v : value) :
  heap w !! md = Some m →
  md_setitem md k v w = Ok (tt, with_heap (<[md := <[k := v]> m]> (heap w)) w).
Proof. intros H. unfold md_setitem. unfold_monad. by rewrite (md_read_ok _ _ _ H). Qed.

Lemma md_update_ok (w : world) (md : loc) (m other : PropertyList) :
  heap w !! md = Some m →
  md_update md other w = Ok (tt, with_heap (<[md := other ∪ m]> (heap w)) w).
Proof. intros H. unfold md_update. unfold_monad. by rewrite (md_read_ok _ _ _ H). Qed.

Lemma with_heap_with_heap (h1 h2 : gmap loc PropertyList) (w : world) :
  with_heap h1 (with_heap h2 w) = with_heap h1 w.
Proof. done. Qed.

Lemma heap_with_heap (h : gmap loc PropertyList) (w : world) :
  heap (with_heap h w) = h.
Proof. done. Qed.

Lemma sync_steps (self : IsrCalib.t) (md : loc) (m : PropertyList) (w : world)
    {A} (k : M A) :
  IsrCalib._metadata self = Some md →
  heap w !! md = Some m →
  (IsrCalib.metadata_setitem self "INSTRUME" (or_None (IsrCalib._instrument self));;
   IsrCalib.metadata_setitem self "RAFTNAME" (or_None (IsrCalib._raftName self));;
   IsrCalib.metadata_setitem self "SLOTNAME" (or_None (IsrCalib._slotName self));;
   IsrCalib.metadata_setitem self "DETECTOR" (or_None (IsrCalib._detectorId self));;
   IsrCalib.metadata_setitem self "DET_NAME" (or_None (IsrCalib._detectorName self));;
   IsrCalib.metadata_setitem self "DET_SER" (or_None (IsrCalib._detectorSerial self));;
   IsrCalib.metadata_setitem self "FILTER" (or_None (IsrCalib._filter self));;
   IsrCalib.metadata_setitem self "CALIB_ID" (or_None (IsrCalib._calibId self));;
   k) w
  = k (with_heap (<[md := sync self m]> (heap w)) w).
Proof.
  intros Hmd Hm. unfold IsrCalib.metadata_setitem, IsrCalib.getMetadata. rewrite Hmd.
  unfold mbind, M_bind, mret, M_ret.
  rewrite (md_setitem_ok _ _ _ _ _ Hm).
  repeat (erewrite md_setitem_ok by (rewrite heap_with_heap; apply lookup_insert_eq);
          rewrite heap_with_heap, with_heap_with_heap, insert_insert_eq).
  done.
Qed.

Lemma bind_ok {A B} (m : M A) (f : A → M B) (w w' : world) (a : A) :
  m w = Ok (a, w') → (m ≫= f) w = f a w'.
Proof. intros H. unfold mbind, M_bind. by rewrite H. Qed.

(** [updateMetadata] without geometry objects and without [setCalibId]:
    the filter is taken when given, the identity keys are written from the
    attributes, and the keywords and the date entries are merged in last. *)
Lemma updateMetadata_plain (self : IsrCalib.t) (md : loc) (m : PropertyList)
    (camera detector : arg) (filterName : value) (setDate : bool)
    (kwargs : gmap string value) (w : world) :
  IsrCalib._metadata self = Some md →
  heap w !! md = Some m →
  arg_truthy camera = false →
  arg_truthy detector = false →
  IsrCalib.updateMetadata self camera detector filterName false setDate kwargs w
  = let self' := if truthy filterName then IsrCalib.set_filter filterName self else self in
    let dates := if setDate then date_entries (clock w (ticks w)) else ∅ in
    let w1 := if setDate then tick w else w in
    Ok (self', with_heap (<[md := (kwargs ∪ dates) ∪ sync self' m]> (heap w)) w1).
Proof.
  intros Hmd Hm Hcam Hdet. unfold IsrCalib.updateMetadata.
  erewrite bind_ok by (unfold IsrCalib.getMetadata; rewrite Hmd; reflexivity).
  rewrite Hcam, Hdet.
  erewrite bind_ok by reflexivity. erewrite bind_ok by reflexivity.
  erewrite bind_ok by reflexivity.
  set (self' := if truthy filterName then IsrCalib.set_filter filterName self else self).
  assert (Hmd' : IsrCalib._metadata self' = Some md).
  { subst self'. by destruct (truthy filterName). }
  destruct setDate.
  - erewrite bind_ok by reflexivity.
    rewrite (sync_steps self' md m) by done.
    erewrite bind_ok by (apply md_update_ok; rewrite heap_with_heap; apply lookup_insert_eq).
    cbn. rewrite insert_insert_eq. done.
  - erewrite bind_ok by reflexivity.
    rewrite (sync_steps self' md m) by done.
    erewrite bind_ok by (apply md_update_ok; rewrite heap_with_heap; apply lookup_insert_eq).
    cbn. rewrite insert_insert_eq. done.
Qed.

(** ** [updateMetadata]: raft and slot from the detector name *)

Lemma split_one_separator (sep : ascii) (s : string) :
  count_char sep s = 1 →
  ∃ a b, split sep s = [a; b] ∧ s = a +:+ String sep "" +:+ b.
Proof.
  intros Hc. pose proof (length_split sep s) as L. rewrite Hc in L.
  pose proof (join_split sep s) as J.
  destruct (split sep s) as [|a [|b [|]]]; simplify_eq/=. eauto.
Qed.

Lemma split_many_separators (sep : ascii) (s : string) :
  2 ≤ count_char sep s →
  ∃ a b c rest, split sep s = a :: b :: c :: rest.
Proof.
  intros Hc. pose proof (length_split sep s) as L.
  destruct (split sep s) as [|a [|b [|c rest]]]; simpl in *; try lia. eauto.
Qed.

(** With two or more underscores in the detector's name the unpacking of
    the split fails, whatever else is passed. *)
Lemma updateMetadata_detector_raises (self : IsrCalib.t) (camera : arg)
    (detector : Detector.t) (filterName : value) (setCalibId setDate : bool)
    (kwargs : gmap string value) (w : world) :
  2 ≤ count_char "_" (Detector.getName detector) →
  raises (IsrCalib.updateMetadata self camera (DetectorObj detector) filterName
            setCalibId setDate kwargs w) = true.
Proof.
  intros Hc. unfold IsrCalib.updateMetadata.
  apply bind_raises; intros mdOriginal w1 _.
  apply bind_raises; intros self1 w2 _.
  apply bind_raises_l. simpl.
  do 3 erewrite bind_ok by reflexivity.
  assert (contains "_" (Detector.getName detector) = true) as ->
    by (apply contains_count; lia).
  destruct (split_many_separators _ _ Hc) as (a & b & c & rest & ->). done.
Qed.

Lemma updateMetadata_detector_ValueError (self : IsrCalib.t) (md : loc)
    (camera : option Camera.t) (detector : Detector.t) (filterName : value)
    (setCalibId setDate : bool) (kwargs : gmap string value) (w : world) :
  IsrCalib._metadata self = Some md →
  2 ≤ count_char "_" (Detector.getName detector) →
  IsrCalib.updateMetadata self (camera_arg camera) (DetectorObj detector) filterName
    setCalibId setDate kwargs w
  = Raise (ValueError "too many values to unpack (expected 2)").
Proof.
  intros Hmd Hc. unfold IsrCalib.updateMetadata.
  erewrite bind_ok by (unfold IsrCalib.getMetadata; rewrite Hmd; reflexivity).
  destruct camera as [camera|]; (erewrite bind_ok by reflexivity);
  simpl arg_truthy; cbv iota;
  unfold mbind at 1, M_bind at 1;
  (do 3 erewrite bind_ok by reflexivity);
  (assert (contains "_" (Detector.getName detector) = true) as ->
     by (apply contains_count; lia));
  destruct (split_many_separators _ _ Hc) as (a & b & c & rest & ->);
  reflexivity.
Qed.

Lemma updateMetadata_detector_one_underscore (self : IsrCalib.t) (md : loc)
    (m : PropertyList) (camera : option Camera.t) (detector : Detector.t)
    (filterName : value) (setDate : bool) (kwargs : gmap string value) (w : world) :
  IsrCalib._metadata self = Some md →
  heap w !! md = Some m →
  count_char "_" (Detector.getName detector) = 1 →
  ∃ raft slot self' w',
    Detector.getName detector = raft +:+ "_" +:+ slot
    ∧ IsrCalib.updateMetadata self (camera_arg camera) (DetectorObj detector)
        filterName false setDate kwargs w = Ok (self', w')
    ∧ IsrCalib._raftName self' = VStr raft
    ∧ IsrCalib._slotName self' = VStr slot
    ∧ IsrCalib._detectorName self' = VStr (Detector.getName detector)
    ∧ heap w' !! md
      = Some ((kwargs ∪ (if setDate then date_entries (clock w (ticks w)) else ∅))
              ∪ sync self' m).
Proof.
  intros Hmd Hm Hc.
  destruct (split_one_separator _ _ Hc) as (raft & slot & Hsplit & Hname).
  exists raft, slot.
  unfold IsrCalib.updateMetadata.
  erewrite bind_ok by (unfold IsrCalib.getMetadata; rewrite Hmd; reflexivity).
  set (self0 := match camera with
                | Some camera => IsrCalib.set_instrument (VStr (Camera.getName camera)) self
                | None => self
                end).
  erewrite (bind_ok _ _ _ _ self0) by (subst self0; destruct camera; reflexivity).
  simpl arg_truthy. cbv iota.
  erewrite bind_ok; cycle 1.
  { erewrite bind_ok by reflexivity. erewrite bind_ok by reflexivity.
    erewrite bind_ok by reflexivity.
    assert (contains "_" (Detector.getName detector) = true) as ->
      by (apply contains_count; lia).
    rewrite Hsplit. reflexivity. }
  erewrite bind_ok by reflexivity.
  match goal with |- context [sync ?s _] => idtac | |- context [IsrCalib.metadata_setitem ?s _ _] => set (self' := s) end.
  assert (Hmd' : IsrCalib._metadata self' = Some md).
  { subst self' self0. destruct (truthy filterName), camera; done. }
  destruct setDate.
  - erewrite bind_ok by reflexivity.
    rewrite (sync_steps self' md m) by done.
    erewrite bind_ok by (apply md_update_ok; rewrite heap_with_heap; apply lookup_insert_eq).
    eexists _, _. split; [done|]. split; [reflexivity|].
    cbn. rewrite insert_insert_eq, lookup_insert_eq.
    subst self' self0. destruct (truthy filterName), camera; done.
  - erewrite bind_ok by reflexivity.
    rewrite (sync_steps self' md m) by done.
    erewrite bind_ok by (apply md_update_ok; rewrite heap_with_heap; apply lookup_insert_eq).
    eexists _, _. split; [done|]. split; [reflexivity|].
    cbn. rewrite insert_insert_eq, lookup_insert_eq.
    subst self' self0. destruct (truthy filterName), camera; done.
Qed.

(** C10: with exactly one underscore in the detector's name,
    [updateMetadata] sets [_raftName] and [_slotName] to the two parts; with
    two or more the unpacking of the split fails, so [updateMetadata]
    raises, and so does every construction from such a detector: of an
    [IsrProvenance], and of an [IsrCalib] subclass whatever its
    [fromDetector] does. *)
Theorem updateMetadata_detector_name (self : IsrCalib.t) (detector : Detector.t)
    (w : world) :
  let name := Detector.getName detector in
  (count_char "_" name = 1 →
     ∀ md m camera filterName setDate kwargs,
       IsrCalib._metadata self = Some md →
       heap w !! md = Some m →
       ∃ raft slot self' w',
         name = raft +:+ "_" +:+ slot
         ∧ IsrCalib.updateMetadata self (camera_arg camera) (DetectorObj detector)
             filterName false setDate kwargs w = Ok (self', w')
         ∧ IsrCalib._raftName self' = VStr raft
         ∧ IsrCalib._slotName self' = VStr slot)
  ∧ (2 ≤ count_char "_" name →
       (∀ camera filterName setCalibId setDate kwargs,
          raises (IsrCalib.updateMetadata self camera (DetectorObj detector)
                    filterName setCalibId setDate kwargs w) = true)
       ∧ (∀ md camera filterName setCalibId setDate kwargs,
            IsrCalib._metadata self = Some md →
            IsrCalib.updateMetadata self (camera_arg camera) (DetectorObj detector)
              filterName setCalibId setDate kwargs w
            = Raise (ValueError "too many values to unpack (expected 2)"))
       ∧ (∀ calibType camera detectorName detectorId,
            raises (IsrProvenance.__init__ calibType camera (DetectorObj detector)
                      detectorName detectorId w) = true)
       ∧ (∀ fromDetector camera detectorName detectorId,
            raises (IsrCalib.__init__ (H := IsrCalib.implementing fromDetector)
                      (IsrCalib.object_new IsrCalibCls) camera (DetectorObj detector)
                      detectorName detectorId w) = true)).
Proof.
  intros name. split.
  - intros Hc md m camera filterName setDate kwargs Hmd Hm.
    destruct (updateMetadata_detector_one_underscore self md m camera detector
                filterName setDate kwargs w Hmd Hm Hc)
      as (raft & slot & self' & w' & ? & ? & ? & ? & _).
    eauto 10.
  - intros Hc. repeat split.
    + intros. by apply updateMetadata_detector_raises.
    + intros. by eapply updateMetadata_detector_ValueError.
    + intros. unfold IsrProvenance.__init__. apply bind_raises_l.
      unfold IsrCalib.__init__.
      apply bind_raises; intros ? ? _.
      apply bind_raises; intros ? ? _.
      apply bind_raises; intros ? ? _.
      unfold IsrCalib.virtual_updateMetadata, IsrProvenance.subclass,
        IsrProvenance.updateMetadata.
      apply bind_raises_l. by apply updateMetadata_detector_raises.
    + intros. unfold IsrCalib.__init__.
      apply bind_raises; intros ? ? _.
      apply bind_raises; intros ? ? _.
      apply bind_raises; intros ? ? _.
      by apply updateMetadata_detector_raises.
Qed.

Lemma updateMetadata_detector_name_witness :
  ∃ self' w',
    IsrCalib.updateMetadata
      (IsrCalib.set_metadata (Some 1%positive) (IsrCalib.object_new IsrCalibCls))
      (Value VNone)
      (DetectorObj {| Detector.getName := "R22_S11"; Detector.getSerial := "ITL-3800C";
                      Detector.getId := 94 |})
      VNone false false ∅ (with_heap {[ 1%positive := ∅ ]} world0)
    = Ok (self', w')
    ∧ IsrCalib._raftName self' = VStr "R22"
    ∧ IsrCalib._slotName self' = VStr "S11".
Proof.
  assert (Hm : heap (with_heap {[ 1%positive := ∅ ]} world0) !! 1%positive
               = Some (∅ : PropertyList)) by (vm_compute; reflexivity).
  assert (Hc : count_char "_" "R22_S11" = 1) by reflexivity.
  destruct (proj1 (updateMetadata_detector_name
                     (IsrCalib.set_metadata (Some 1%positive)
                        (IsrCalib.object_new IsrCalibCls))
                     {| Detector.getName := "R22_S11"; Detector.getSerial := "ITL-3800C";
                        Detector.getId := 94 |}
                     (with_heap {[ 1%positive := ∅ ]} world0))
                  Hc 1%positive ∅ None VNone false ∅ eq_refl Hm)
    as (raft & slot & self' & w' & Hname & Hrun & Hraft & Hslot).
  exists self', w'. split; [exact Hrun|].
  assert (raft = "R22" ∧ slot = "S11") as [-> ->]; [|done].
  clear -Hrun Hraft Hslot. vm_compute in Hrun. simplify_eq. 
  vm_compute in Hraft, Hslot. by simplify_eq.
Defined.

Example provenance_from_detector :
  run (IsrProvenance.__init__ (VStr "flat") (Value VNone)
         (DetectorObj {| Detector.getName := "R22_S11"; Detector.getSerial := "ITL";
                         Detector.getId := 94 |}) VNone VNone) world0
  = Raise (NotImplementedError "Must be implemented by subclass.").
Proof. vm_compute. reflexivity. Qed.

Example calib_three_part_name :
  run (IsrCalib.__init__ (H := IsrCalib.implementing (λ self _, mret self))
         (IsrCalib.object_new IsrCalibCls) (Value VNone)
         (DetectorObj {| Detector.getName := "R22_S11_C0"; Detector.getSerial := "ITL";
                         Detector.getId := 94 |}) VNone VNone) world0
  = Raise (ValueError "too many values to unpack (expected 2)").
Proof. vm_compute. reflexivity. Qed.

(** ** [fromDataIds] *)

Lemma add_keys_union (dimensions : gset string) (keys : list string) :
  IsrProvenance.add_keys dimensions keys = dimensions ∪ list_to_set keys.
Proof.
  unfold IsrProvenance.add_keys. revert dimensions.
  induction keys as [|key keys IH]; intros dimensions; simpl.
  - set_solver.
  - rewrite IH. case_bool_decide; set_solver.
Qed.

Lemma add_keys_dom (dimensions : gset string) (dataId : dataId) :
  IsrProvenance.add_keys dimensions (elements (dom dataId)) = dimensions ∪ dom dataId.
Proof. by rewrite add_keys_union, list_to_set_elements_L. Qed.


Lemma all_keys_cons (d : dataId) (l : list dataId) :
  all_keys (d :: l) = dom d ∪ all_keys l.
Proof. done. Qed.


(** One call: the keys are added, the identifiers appended, nothing else
    changes. *)
Lemma fromDataIds_spec (self : IsrProvenance.t) (dataIdList : list dataId) :
  IsrProvenance.fromDataIds self dataIdList
  = IsrProvenance.mk (IsrProvenance.super self) (IsrProvenance.calibType self)
      (IsrProvenance.dimensions self ∪ all_keys dataIdList)
      (IsrProvenance.dataIdList self ++ dataIdList).
Proof.
  unfold IsrProvenance.fromDataIds. revert self.
  induction dataIdList as [|d l IH]; intros self; simpl.
  - destruct self; simpl. unfold all_keys. simpl.
    by rewrite (right_id_L ∅ (∪)), app_nil_r.
  - rewrite IH. simpl. rewrite add_keys_dom, all_keys_cons.
    by rewrite (assoc_L (∪)), <- app_assoc.
Qed.





(** ** Construction *)

Lemma alloc_ok (md : PropertyList) (w : world) :
  alloc md w = Ok (fresh (dom (heap w)), with_heap (<[fresh (dom (heap w)) := md]> (heap w)) w).
Proof. done. Qed.

Lemma fresh_lookup (h : gmap loc PropertyList) : h !! fresh (dom h) = None.
Proof. apply not_elem_of_dom, is_fresh. Qed.

Lemma copy_copy_ok (l : loc) (m : PropertyList) (w : world) :
  heap w !! l = Some m →
  copy_copy l w
  = Ok (fresh (dom (heap w)), with_heap (<[fresh (dom (heap w)) := m]> (heap w)) w).
Proof. intros H. unfold copy_copy. by erewrite bind_ok by (by apply md_read_ok). Qed.

Lemma metadata_setitem_ok (self : IsrCalib.t) (md : loc) (m : PropertyList)
    (k : string) (v : value) (w : world) :
  IsrCalib._metadata self = Some md →
  heap w !! md = Some m →
  IsrCalib.metadata_setitem self k v w
  = Ok (tt, with_heap (<[md := <[k := v]> m]> (heap w)) w).
Proof.
  intros Hmd Hm. unfold IsrCalib.metadata_setitem, IsrCalib.getMetadata. rewrite Hmd.
  erewrite bind_ok by reflexivity. by apply md_setitem_ok.
Qed.

Lemma setMetadata_ok (self : IsrCalib.t) (metadata : loc) (m : PropertyList) (w : world) :
  heap w !! metadata = Some m →
  let md := fresh (dom (heap w)) in
  IsrCalib.setMetadata self (Some metadata) w
  = Ok (IsrCalib.set_metadata (Some md) self,
        with_heap (<[md := class_entries (IsrCalib.__class__ self) m]> (heap w)) w).
Proof.
  intros Hm md. unfold IsrCalib.setMetadata.
  erewrite bind_ok; cycle 1.
  { erewrite bind_ok by (by apply copy_copy_ok). reflexivity. }
  fold md.
  erewrite bind_ok by
    (eapply metadata_setitem_ok; [reflexivity | rewrite heap_with_heap; apply lookup_insert_eq]).
  erewrite bind_ok by
    (eapply metadata_setitem_ok; [reflexivity | rewrite heap_with_heap; apply lookup_insert_eq]).
  erewrite bind_ok by
    (eapply metadata_setitem_ok; [reflexivity | rewrite heap_with_heap; apply lookup_insert_eq]).
  rewrite !heap_with_heap, !with_heap_with_heap, !insert_insert_eq. reflexivity.
Qed.

Lemma init_ok (calibType detectorName detectorId : value) (w : world) :
  let l0 := fresh (dom (heap w)) in
  let md := fresh (dom (<[l0 := ∅]> (heap w))) in
  let base := new_base detectorName detectorId md in
  IsrProvenance.__init__ calibType (Value VNone) (Value VNone) detectorName detectorId w
  = Ok (IsrProvenance.mk base calibType ∅ [],
        with_heap (<[md := <["calibType" := calibType]>
                             (sync base (class_entries IsrProvenanceCls ∅))]>
                     (<[l0 := ∅]> (heap w))) w).
Proof.
  intros l0 md base. unfold IsrProvenance.__init__.
  erewrite bind_ok; cycle 1.
  { unfold IsrCalib.__init__.
    erewrite bind_ok by apply alloc_ok. fold l0.
    erewrite bind_ok by
      (apply setMetadata_ok; rewrite heap_with_heap; apply lookup_insert_eq).
    rewrite heap_with_heap, with_heap_with_heap. fold md.
    simpl arg_truthy. cbv iota.
    erewrite bind_ok by reflexivity.
    unfold IsrCalib.virtual_updateMetadata, IsrProvenance.subclass,
      IsrProvenance.updateMetadata.
    erewrite bind_ok; [reflexivity|].
    eapply updateMetadata_plain; [reflexivity| |reflexivity|reflexivity].
    rewrite heap_with_heap. apply lookup_insert_eq. }
  unfold mret, M_ret. cbv zeta.
  rewrite !heap_with_heap, !with_heap_with_heap, insert_insert_eq, (right_id_L ∅ (∪)).
  rewrite <- insert_union_l, (left_id_L ∅ (∪)). reflexivity.
Qed.

(** ** Equivalence *)

Lemma getattr_ok (self : IsrProvenance.t) (md : loc) (m : PropertyList) (w : world)
    (name : string) :
  IsrCalib._metadata (IsrProvenance.super self) = Some md →
  heap w !! md = Some m →
  getattr self name w
  = match attr_of self m name with
    | Some a => Ok (a, w)
    | None => Raise (AttributeError name)
    end.
Proof.
  intros Hmd Hm. unfold getattr, IsrProvenance.object, IsrProvenance.__getattribute__,
    IsrCalib.__getattribute__, attr_of.
  repeat (case_bool_decide; [reflexivity|]).
  case_bool_decide.
  { unfold IsrCalib.getMetadata. rewrite Hmd.
    erewrite bind_ok by reflexivity. erewrite bind_ok by (by apply md_read_ok). done. }
  by destruct (_ || _).
Qed.

Lemma eq_attrs_spec (p1 p2 : IsrProvenance.t) (f g : string → attr) (w : world)
    (attrs : list string) :
  (∀ name, name ∈ attrs →
     getattr p1 name w = Ok (f name, w) ∧ getattr p2 name w = Ok (g name, w)) →
  IsrCalib.eq_attrs p1 p2 attrs w
  = Ok (forallb (λ name, bool_decide (f name = g name)) attrs, w).
Proof.
  induction attrs as [|name attrs IH]; intros H; simpl; [done|].
  destruct (H name) as [H1 H2]; [set_solver|].
  erewrite bind_ok by exact H1. erewrite bind_ok by exact H2.
  case_bool_decide as Hne.
  - rewrite bool_decide_eq_false_2 by done. done.
  - rewrite bool_decide_eq_true_2 by (by destruct (decide (f name = g name))).
    simpl. apply IH. intros; apply H; set_solver.
Qed.

Lemma forallb_perm {A} (P : A → bool) (l1 l2 : list A) :
  l1 ≡ₚ l2 → forallb P l1 = forallb P l2.
Proof.
  induction 1; simpl; try congruence.
  by destruct (P x), (P y).
Qed.

Lemma elements_provenance_attributes :
  elements provenance_attributes
  ≡ₚ ["_OBSTYPE"; "_SCHEMA"; "_VERSION"; "_instrument"; "_raftName"; "_slotName";
      "_detectorName"; "_detectorSerial"; "_detectorId"; "_filter"; "_calibId";
      "_metadata"; "calibType"; "dimensions"; "dataIdList"].
Proof.
  apply NoDup_Permutation.
  - apply NoDup_elements.
  - apply (bool_decide_eq_true_1 _). vm_compute. reflexivity.
  - intros x. rewrite elem_of_elements. unfold provenance_attributes. set_solver.
Qed.

Lemma attr_of_required (p : IsrProvenance.t) (m : PropertyList) :
  let b := IsrProvenance.super p in
  attr_of p m "_OBSTYPE" = Some (AScalar (VStr (_OBSTYPE (IsrCalib.__class__ b))))
  ∧ attr_of p m "_SCHEMA" = Some (AScalar (VStr (_SCHEMA (IsrCalib.__class__ b))))
  ∧ attr_of p m "_VERSION" = Some (AScalar (VInt (_VERSION (IsrCalib.__class__ b))))
  ∧ attr_of p m "_instrument" = Some (AScalar (IsrCalib._instrument b))
  ∧ attr_of p m "_raftName" = Some (AScalar (IsrCalib._raftName b))
  ∧ attr_of p m "_slotName" = Some (AScalar (IsrCalib._slotName b))
  ∧ attr_of p m "_detectorName" = Some (AScalar (IsrCalib._detectorName b))
  ∧ attr_of p m "_detectorSerial" = Some (AScalar (IsrCalib._detectorSerial b))
  ∧ attr_of p m "_detectorId" = Some (AScalar (IsrCalib._detectorId b))
  ∧ attr_of p m "_filter" = Some (AScalar (IsrCalib._filter b))
  ∧ attr_of p m "_calibId" = Some (AScalar (IsrCalib._calibId b))
  ∧ attr_of p m "_metadata" = Some (AMetadata m)
  ∧ attr_of p m "calibType" = Some (AScalar (IsrProvenance.calibType p))
  ∧ attr_of p m "dimensions" = Some (ASet (IsrProvenance.dimensions p))
  ∧ attr_of p m "dataIdList" = Some (ADataIds (IsrProvenance.dataIdList p)).
Proof. repeat split; reflexivity. Qed.

(** [__eq__] between two well-formed provenances decides [equivalent] and
    changes nothing. *)
Lemma eq_spec (p1 p2 : IsrProvenance.t) (md1 md2 : loc) (m1 m2 : PropertyList)
    (w : world) :
  well_formed p1 md1 m1 w →
  IsrCalib.__class__ (IsrProvenance.super p2) = IsrProvenanceCls →
  IsrCalib._metadata (IsrProvenance.super p2) = Some md2 →
  heap w !! md2 = Some m2 →
  IsrProvenance.__eq__ p1 p2 w = Ok (bool_decide (equivalent p1 m1 p2 m2), w).
Proof.
  intros (Hc1 & Hmd1 & Hm1 & Hreq) Hc2 Hmd2 Hm2.
  unfold IsrProvenance.__eq__, IsrCalib.__eq__.
  unfold type_of at 1 2, IsrProvenance.object at 1 2. rewrite Hc1, Hc2.
  cbn [issubclass negb].
  erewrite bind_ok by (rewrite (getattr_ok _ _ _ _ _ Hmd1 Hm1); reflexivity).
  simpl. rewrite Hreq.
  erewrite bind_ok by reflexivity.
  rewrite (eq_attrs_spec p1 p2 (λ name, default (AScalar VNone) (attr_of p1 m1 name))
             (λ name, default (AScalar VNone) (attr_of p2 m2 name))); cycle 1.
  { intros name Hin. rewrite (set_iter_perm w), elements_provenance_attributes in Hin.
    rewrite (getattr_ok _ _ _ _ _ Hmd1 Hm1), (getattr_ok _ _ _ _ _ Hmd2 Hm2).
    set_unfold in Hin.
    repeat (destruct Hin as [->|Hin]; [done|]). done. }
  pose proof (attr_of_required p1 m1) as A1. pose proof (attr_of_required p2 m2) as A2.
  cbv zeta in A1, A2. rewrite Hc1 in A1. rewrite Hc2 in A2.
  destruct A1 as (E1a & E1b & E1c & E1d & E1e & E1f & E1g & E1h & E1i & E1j & E1k
                  & E1l & E1m & E1n & E1o).
  destruct A2 as (E2a & E2b & E2c & E2d & E2e & E2f & E2g & E2h & E2i & E2j & E2k
                  & E2l & E2m & E2n & E2o).
  rewrite (forallb_perm _ _ _ (set_iter_perm w _)),
    (forallb_perm _ _ _ elements_provenance_attributes).
  f_equal. f_equal.
  assert (∀ (b : bool) (P : Prop) `{Decision P}, (b = true ↔ P) → b = bool_decide P)
    as Hiff.
  { intros [] P ? HP; symmetry;
      [apply bool_decide_eq_true_2; tauto
      |apply bool_decide_eq_false_2; intros ?%HP; done]. }
  apply Hiff. cbn [forallb]. unfold equivalent. cbv zeta.
  rewrite E1a, E1b, E1c, E1d, E1e, E1f, E1g, E1h, E1i, E1j, E1k, E1l, E1m, E1n, E1o.
  rewrite E2a, E2b, E2c, E2d, E2e, E2f, E2g, E2h, E2i, E2j, E2k, E2l, E2m, E2n, E2o.
  cbn [default]. rewrite !andb_true_iff, !bool_decide_eq_true, Hc1, Hc2.
  split.
  - intros H. destruct_and!. simplify_eq. done.
  - intros H. destruct_and!. repeat split; congruence.
Qed.

(** ** The conversions, run symbolically *)

Lemma provenance_updateMetadata_ok (self : IsrProvenance.t) (md : loc) (m : PropertyList)
    (setDate : bool) (kwargs : gmap string value) (w : world) :
  IsrCalib._metadata (IsrProvenance.super self) = Some md →
  heap w !! md = Some m →
  IsrProvenance.updateMetadata self (Value VNone) (Value VNone) VNone false setDate kwargs w
  = Ok (self,
        with_heap
          (<[md := (<["calibType" := IsrProvenance.calibType self]> kwargs
                    ∪ (if setDate then date_entries (clock w (ticks w)) else ∅))
                   ∪ sync (IsrProvenance.super self) m]> (heap w))
          (if setDate then tick w else w)).
Proof.
  intros Hmd Hm. unfold IsrProvenance.updateMetadata.
  erewrite bind_ok by (by eapply updateMetadata_plain).
  by destruct self.
Qed.

Lemma toDict_ok (self : IsrProvenance.t) (md : loc) (m : PropertyList) (w : world) :
  IsrCalib._metadata (IsrProvenance.super self) = Some md →
  heap w !! md = Some m →
  IsrProvenance.toDict self w
  = Ok ((self,
         {| ProvenanceDict.metadata := Some (ProvenanceDict.Ref md);
            ProvenanceDict.detectorName :=
              Some (IsrCalib._detectorName (IsrProvenance.super self));
            ProvenanceDict.detectorSerial :=
              Some (IsrCalib._detectorSerial (IsrProvenance.super self));
            ProvenanceDict.instrument :=
              Some (IsrCalib._instrument (IsrProvenance.super self));
            ProvenanceDict.calibType := Some (IsrProvenance.calibType self);
            ProvenanceDict.dimensions := Some (set_iter w (IsrProvenance.dimensions self));
            ProvenanceDict.dataIdList := Some (IsrProvenance.dataIdList self) |}),
        with_heap (<[md := stamped self m (clock w (ticks w))]> (heap w)) (tick w)).
Proof.
  intros Hmd Hm. unfold IsrProvenance.toDict.
  erewrite bind_ok by (by eapply provenance_updateMetadata_ok).
  unfold IsrCalib.getMetadata. rewrite Hmd.
  erewrite bind_ok by reflexivity. erewrite bind_ok by reflexivity.
  reflexivity.
Qed.

Lemma toTable_ok (self : IsrProvenance.t) (md : loc) (m : PropertyList) (w : world)
    (catalog : Table) :
  IsrCalib._metadata (IsrProvenance.super self) = Some md →
  heap w !! md = Some m →
  Table_new (IsrProvenance.dataIdList self) (set_iter w (IsrProvenance.dimensions self))
  = Ok catalog →
  IsrProvenance.toTable self w
  = Ok ((self,
         [with_meta (filter (λ kv, kv.2 ≠ VNone) (stamped self m (clock w (ticks w))))
            catalog]),
        with_heap (<[md := stamped self m (clock w (ticks w))]> (heap w)) (tick w)).
Proof.
  intros Hmd Hm Hcat. unfold IsrProvenance.toTable.
  erewrite bind_ok by (by eapply provenance_updateMetadata_ok).
  erewrite bind_ok by reflexivity.
  cbn [set_iter with_heap tick]. rewrite Hcat.
  erewrite bind_ok by reflexivity.
  unfold IsrCalib.getMetadata. rewrite Hmd.
  erewrite bind_ok by reflexivity.
  erewrite bind_ok by (apply md_read_ok; rewrite heap_with_heap; apply lookup_insert_eq).
  reflexivity.
Qed.

Lemma delete_parameter_names (km : PropertyList) :
  (∀ k, k ∈ parameter_names → km !! k = None) →
  delete "camera" (delete "detector" (delete "filterName" (delete "setCalibId" km))) = km.
Proof.
  intros H.
  rewrite (delete_id km "setCalibId") by (apply H; set_solver).
  rewrite (delete_id km "filterName") by (apply H; set_solver).
  rewrite (delete_id km "detector") by (apply H; set_solver).
  rewrite (delete_id km "camera") by (apply H; set_solver). done.
Qed.

Lemma fromDict_ok (dictionary : ProvenanceDict.t) (mp : ProvenanceDict.mapping)
    (km : PropertyList) (detectorName detectorSerial instrument calibType : value)
    (dimensions : list string) (dataIdList : list dataId) (w : world) :
  dictionary = {| ProvenanceDict.metadata := Some mp;
                  ProvenanceDict.detectorName := Some detectorName;
                  ProvenanceDict.detectorSerial := Some detectorSerial;
                  ProvenanceDict.instrument := Some instrument;
                  ProvenanceDict.calibType := Some calibType;
                  ProvenanceDict.dimensions := Some dimensions;
                  ProvenanceDict.dataIdList := Some dataIdList |} →
  contents_in (heap w) mp = Some km →
  (∀ k, k ∈ parameter_names → km !! k = None) →
  let l0 := fresh (dom (heap w)) in
  let md := fresh (dom (<[l0 := ∅]> (heap w))) in
  let base := IsrCalib.mk IsrProvenanceCls instrument VNone VNone detectorName
                detectorSerial VNone VNone VNone (Some md) provenance_attributes in
  IsrProvenance.fromDict dictionary w
  = Ok (IsrProvenance.mk base calibType (list_to_set dimensions) dataIdList,
        with_heap (<[md := restored_metadata km base calibType]>
                     (<[l0 := ∅]> (heap w))) w).
Proof.
  intros -> Hkm Hpar l0 md base. unfold IsrProvenance.fromDict.
  erewrite bind_ok by apply init_ok. fold l0 md.
  simpl ProvenanceDict.metadata.
  erewrite bind_ok by reflexivity.
  assert (Hlook : ∀ h' : PropertyList,
             ProvenanceDict.entries mp
               (with_heap (<[md := h']> (<[l0 := ∅]> (heap w))) w)
             = Ok (km, with_heap (<[md := h']> (<[l0 := ∅]> (heap w))) w)).
  { intros h'. destruct mp as [l|m0]; simpl in *; [|by simplify_eq].
    apply md_read_ok. rewrite heap_with_heap.
    assert (l ≠ l0) by (intros ->; subst l0; by rewrite fresh_lookup in Hkm).
    assert (l ≠ md).
    { intros ->. subst md. pose proof (fresh_lookup (<[l0:=∅]> (heap w))) as Hf.
      rewrite lookup_insert_ne in Hf by done. congruence. }
    by rewrite !lookup_insert_ne by done. }
  erewrite bind_ok by apply Hlook.
  erewrite bind_ok; cycle 1.
  { unfold IsrProvenance.updateMetadata_unpack.
    rewrite bool_decide_eq_false_2; cycle 1.
    { rewrite Hpar by set_solver. by intros [? ?]. }
    rewrite !Hpar by set_solver. simpl default. simpl truthy.
    rewrite delete_parameter_names by done.
    eapply provenance_updateMetadata_ok; [reflexivity|].
    rewrite heap_with_heap. apply lookup_insert_eq. }
  rewrite heap_with_heap, with_heap_with_heap, insert_insert_eq.
  erewrite bind_ok by reflexivity.
  erewrite bind_ok by apply Hlook.
  simpl ProvenanceDict.detectorName. simpl ProvenanceDict.detectorSerial.
  simpl ProvenanceDict.instrument. simpl ProvenanceDict.calibType.
  simpl ProvenanceDict.dimensions. simpl ProvenanceDict.dataIdList.
  cbn [default].
  erewrite bind_ok by reflexivity. erewrite bind_ok by reflexivity.
  erewrite bind_ok by reflexivity.
  erewrite provenance_updateMetadata_ok; cycle 1.
  { reflexivity. }
  { rewrite heap_with_heap. apply lookup_insert_eq. }
  rewrite heap_with_heap, with_heap_with_heap, insert_insert_eq.
  f_equal. f_equal. f_equal. f_equal.
  unfold restored_metadata, initial_metadata.
  rewrite !(right_id_L ∅ (∪)). rewrite <- insert_union_l, (left_id_L ∅ (∪)).
  reflexivity.
Qed.

(** ** The metadata after a round trip *)

Lemma option_union_Some_l {A} (a : A) (o : option A) : Some a ∪ o = Some a.
Proof. by destruct o. Qed.

Lemma sync_lookup (base : IsrCalib.t) (m : PropertyList) (k : string) :
  sync base m !! k
  = match sync base ∅ !! k with
    | Some v => Some v
    | None => m !! k
    end.
Proof.
  unfold sync. rewrite !lookup_insert.
  repeat (case_decide; [done|]). by rewrite lookup_empty.
Qed.

Lemma sync_is_Some (base : IsrCalib.t) (k : string) :
  is_Some (sync base ∅ !! k) ↔
  k ∈ ["INSTRUME"; "RAFTNAME"; "SLOTNAME"; "DETECTOR"; "DET_NAME"; "DET_SER"; "FILTER";
       "CALIB_ID"].
Proof.
  unfold sync. rewrite !lookup_insert.
  repeat (case_decide; [subst; split; [set_solver|eauto]|]).
  rewrite lookup_empty. split; [by intros [? ?]|]. set_solver.
Qed.

Lemma restored_lookup (km : PropertyList) (base : IsrCalib.t) (calibType : value)
    (k : string) :
  restored_metadata km base calibType !! k
  = if decide (k = "calibType") then Some calibType
    else match sync base ∅ !! k with
         | Some v => Some v
         | None =>
             match km !! k with
             | Some v => Some v
             | None => class_entries IsrProvenanceCls ∅ !! k
             end
         end.
Proof.
  unfold restored_metadata. rewrite lookup_insert.
  case_decide as Hk; [by subst; rewrite decide_True|].
  rewrite decide_False by done.
  rewrite sync_lookup. destruct (sync base ∅ !! k) as [v|] eqn:Hs; [done|].
  rewrite lookup_union, lookup_insert_ne by done.
  destruct (km !! k) as [v|] eqn:Hkm; simpl.
  { apply option_union_Some_l. }
  rewrite (left_id_L None _).
  assert (Hnone : sync (new_base VNone VNone 1%positive) ∅ !! k = None).
  { destruct (sync (new_base _ _ _) ∅ !! k) eqn:E; [|done].
    assert (is_Some (sync base ∅ !! k)) as [? ?]; [|congruence].
    apply (sync_is_Some base), (sync_is_Some (new_base VNone VNone 1%positive)). eauto. }
  rewrite sync_lookup, Hnone. unfold initial_metadata.
  rewrite lookup_insert_ne by done. by rewrite sync_lookup, Hnone.
Qed.

Lemma stamped_lookup (self : IsrProvenance.t) (m : PropertyList) (date : datetime)
    (k : string) :
  stamped self m date !! k
  = if decide (k = "calibType") then Some (IsrProvenance.calibType self)
    else match date_entries date !! k with
         | Some v => Some v
         | None =>
             match sync (IsrProvenance.super self) ∅ !! k with
             | Some v => Some v
             | None => m !! k
             end
         end.
Proof.
  unfold stamped. rewrite !lookup_union, lookup_insert, lookup_empty.
  case_decide as Hk.
  { subst. by rewrite decide_True, !option_union_Some_l by done. }
  rewrite decide_False by done. rewrite (left_id_L None _).
  destruct (date_entries date !! k); [by rewrite option_union_Some_l|].
  rewrite (left_id_L None _). apply sync_lookup.
Qed.

Lemma restored_fixpoint (km S : PropertyList) (base : IsrCalib.t) (calibType : value) :
  S !! "calibType" = Some calibType →
  (∀ k v, sync base ∅ !! k = Some v → S !! k = Some v) →
  (∀ k, k ≠ "calibType" → sync base ∅ !! k = None →
     match km !! k with
     | Some v => Some v
     | None => class_entries IsrProvenanceCls ∅ !! k
     end = S !! k) →
  restored_metadata km base calibType = S.
Proof.
  intros Hct Hsync Hrest. apply map_eq; intros k. rewrite restored_lookup.
  case_decide as Hk; [by subst|].
  destruct (sync base ∅ !! k) as [v|] eqn:Hs; [symmetry; eauto|]. by apply Hrest.
Qed.

Lemma class_entries_is_Some (k : string) :
  is_Some (class_entries IsrProvenanceCls ∅ !! k) →
  k ∈ ["OBSTYPE"; "IsrProvenance_SCHEMA"; "IsrProvenance_VERSION"].
Proof.
  unfold class_entries. simpl _OBSTYPE.
  change ("IsrProvenance" +:+ "_VERSION") with "IsrProvenance_VERSION".
  change ("IsrProvenance" +:+ "_SCHEMA") with "IsrProvenance_SCHEMA".
  rewrite !lookup_insert. repeat (case_decide; [subst; set_solver|]).
  rewrite lookup_empty. by intros [? ?].
Qed.

Lemma date_entries_is_Some (date : datetime) (k : string) :
  is_Some (date_entries date !! k) →
  k ∈ ["CALIBDATE"; "CALIB_CREATION_DATE"; "CALIB_CREATION_TIME"].
Proof.
  unfold date_entries. rewrite !lookup_insert.
  repeat (case_decide; [subst; set_solver|]).
  rewrite lookup_empty. by intros [? ?].
Qed.

(** The keys that [toDict] and [toTable] write whatever the metadata held
    before. *)
Lemma stamped_other (self : IsrProvenance.t) (m : PropertyList) (date : datetime)
    (k : string) :
  k ≠ "calibType" →
  k ∉ ["CALIBDATE"; "CALIB_CREATION_DATE"; "CALIB_CREATION_TIME"] →
  k ∉ ["INSTRUME"; "RAFTNAME"; "SLOTNAME"; "DETECTOR"; "DET_NAME"; "DET_SER"; "FILTER";
       "CALIB_ID"] →
  stamped self m date !! k = m !! k.
Proof.
  intros Hk Hd Hs. rewrite stamped_lookup, decide_False by done.
  destruct (date_entries date !! k) eqn:Ed.
  { destruct Hd. apply (date_entries_is_Some date). eauto. }
  destruct (sync (IsrProvenance.super self) ∅ !! k) eqn:Es; [|done].
  destruct Hs. apply (sync_is_Some (IsrProvenance.super self)). eauto.
Qed.

Lemma stamped_sync (self : IsrProvenance.t) (m : PropertyList) (date : datetime)
    (k : string) (v : value) :
  sync (IsrProvenance.super self) ∅ !! k = Some v →
  stamped self m date !! k = Some v.
Proof.
  intros Hs. rewrite stamped_lookup.
  assert (Hin : k ∈ ["INSTRUME"; "RAFTNAME"; "SLOTNAME"; "DETECTOR"; "DET_NAME"; "DET_SER";
                     "FILTER"; "CALIB_ID"])
    by (apply (sync_is_Some (IsrProvenance.super self)); eauto).
  rewrite decide_False by (intros ->; set_solver).
  destruct (date_entries date !! k) eqn:Ed; [|by rewrite Hs].
  assert (k ∈ ["CALIBDATE"; "CALIB_CREATION_DATE"; "CALIB_CREATION_TIME"])
    by (apply (date_entries_is_Some date); eauto).
  set_solver.
Qed.

Lemma stamped_calibType (self : IsrProvenance.t) (m : PropertyList) (date : datetime) :
  stamped self m date !! "calibType" = Some (IsrProvenance.calibType self).
Proof. by rewrite stamped_lookup, decide_True. Qed.

(** The values that [updateMetadata] writes under the identity keys depend
    on the identity attributes only through [or_None]. *)
Lemma sync_ext (b1 b2 : IsrCalib.t) :
  or_None (IsrCalib._instrument b1) = or_None (IsrCalib._instrument b2) →
  or_None (IsrCalib._raftName b1) = or_None (IsrCalib._raftName b2) →
  or_None (IsrCalib._slotName b1) = or_None (IsrCalib._slotName b2) →
  or_None (IsrCalib._detectorId b1) = or_None (IsrCalib._detectorId b2) →
  or_None (IsrCalib._detectorName b1) = or_None (IsrCalib._detectorName b2) →
  or_None (IsrCalib._detectorSerial b1) = or_None (IsrCalib._detectorSerial b2) →
  or_None (IsrCalib._filter b1) = or_None (IsrCalib._filter b2) →
  or_None (IsrCalib._calibId b1) = or_None (IsrCalib._calibId b2) →
  sync b1 ∅ = sync b2 ∅.
Proof. unfold sync. by intros -> -> -> -> -> -> -> ->. Qed.

(** ** Round trip through a dictionary *)

(** Where the dictionary round trip does hold: for a provenance whose
    raft, slot, detector id, filter and calib-id are unset, and whose
    metadata has the class entries and no key named like a parameter of
    [updateMetadata]. *)
Lemma fromDict_toDict (self : IsrProvenance.t) (md : loc) (m : PropertyList) (w : world) :
  well_formed self md m w →
  (∀ k, k ∈ parameter_names → m !! k = None) →
  (∀ k, k ∈ ["OBSTYPE"; "IsrProvenance_SCHEMA"; "IsrProvenance_VERSION"] →
        is_Some (m !! k)) →
  IsrCalib._raftName (IsrProvenance.super self) = VNone →
  IsrCalib._slotName (IsrProvenance.super self) = VNone →
  IsrCalib._detectorId (IsrProvenance.super self) = VNone →
  IsrCalib._filter (IsrProvenance.super self) = VNone →
  IsrCalib._calibId (IsrProvenance.super self) = VNone →
  ∃ dictionary w1 calib w2,
    IsrProvenance.toDict self w = Ok ((self, dictionary), w1)
    ∧ IsrProvenance.fromDict dictionary w1 = Ok (calib, w2)
    ∧ IsrProvenance.__eq__ calib self w2 = Ok (true, w2).
Proof.
  intros (Hcls & Hmd & Hm & Hreq) Hpar Hclass Hraft Hslot Hid Hfilter Hcid.
  set (S := stamped self m (clock w (ticks w))).
  eexists _, _, _, _. split; [by eapply toDict_ok|].
  assert (HS : ∀ k, k ∈ parameter_names → S !! k = None).
  { intros k Hk. subst S. rewrite stamped_other; [by apply Hpar| | |];
      unfold parameter_names in Hk; set_solver. }
  split.
  { eapply (fromDict_ok _ (ProvenanceDict.Ref md) S);
      [reflexivity | simpl; apply lookup_insert_eq | exact HS]. }
  cbn [heap with_heap tick].
  set (l0 := fresh (dom (<[md := S]> (heap w)))).
  set (md' := fresh (dom (<[l0 := ∅]> (<[md := S]> (heap w))))).
  assert (Hl0 : md ≠ l0).
  { intros E. pose proof (fresh_lookup (<[md := S]> (heap w))) as Hf. fold l0 in Hf.
    rewrite <- E, lookup_insert_eq in Hf. done. }
  assert (Hmd' : md ≠ md').
  { intros E. pose proof (fresh_lookup (<[l0 := ∅]> (<[md := S]> (heap w)))) as Hf.
    fold md' in Hf. rewrite <- E, lookup_insert_ne, lookup_insert_eq in Hf; done. }
  erewrite eq_spec; cycle 1.
  { unfold well_formed. split_and!; [reflexivity|reflexivity| |reflexivity].
    rewrite heap_with_heap. apply lookup_insert_eq. }
  { exact Hcls. }
  { exact Hmd. }
  { rewrite heap_with_heap, !lookup_insert_ne by done. apply lookup_insert_eq. }
  rewrite bool_decide_eq_true_2; [done|].
  unfold equivalent. simpl. rewrite Hcls, Hraft, Hslot, Hid, Hfilter, Hcid.
  repeat split.
  - apply restored_fixpoint.
    + apply stamped_calibType.
    + intros k v Hs. apply stamped_sync. rewrite <- Hs. f_equal.
      apply sync_ext; simpl; by rewrite ?Hraft, ?Hslot, ?Hid, ?Hfilter, ?Hcid.
    + intros k Hk Hs. destruct (S !! k) as [v|] eqn:ES; [done|].
      destruct (class_entries IsrProvenanceCls ∅ !! k) as [v|] eqn:Ec; [|done].
      assert (Hin : k ∈ ["OBSTYPE"; "IsrProvenance_SCHEMA"; "IsrProvenance_VERSION"])
        by (apply class_entries_is_Some; eauto).
      destruct (Hclass k Hin) as [v' Hv']. subst S.
      rewrite stamped_other in ES; [congruence|done|set_solver|set_solver].
  - apply leibniz_equiv. rewrite (set_iter_perm w). apply list_to_set_elements.
Qed.

(** C1 (as the code has it): a provenance constructed with a detector id
    does not survive [toDict] followed by [fromDict].  [toDict] does not
    write the detector id at top level and [fromDict] restores only the
    instrument, the detector name and the detector serial, so the copy has
    [_detectorId = None] (and [DETECTOR] is [None] in its metadata) and
    [__eq__] is false. *)
Theorem fromDict_toDict_detectorId :
  run (c ← IsrProvenance.__init__ (VStr "flat") (Value VNone) (Value VNone)
             VNone (VInt 5);
       '(c, dictionary) ← IsrProvenance.toDict c;
       calib ← IsrProvenance.fromDict dictionary;
       equal ← IsrProvenance.__eq__ calib c;
       mret (equal, IsrCalib._detectorId (IsrProvenance.super calib),
             IsrCalib._detectorId (IsrProvenance.super c)))
      world0
  = Ok (false, VNone, VInt 5).
Proof. vm_compute. reflexivity. Qed.

Example fromDict_toDict_filter :
  run (c ← IsrProvenance.__init__ (VStr "flat") (Value VNone) (Value VNone) VNone VNone;
       c ← IsrProvenance.updateMetadata c (Value VNone) (Value VNone) (VStr "r")
             false false ∅;
       '(c, dictionary) ← IsrProvenance.toDict c;
       calib ← IsrProvenance.fromDict dictionary;
       equal ← IsrProvenance.__eq__ calib c;
       mret (equal, IsrCalib._filter (IsrProvenance.super calib),
             IsrCalib._filter (IsrProvenance.super c)))
      world0
  = Ok (false, VNone, VStr "r").
Proof. vm_compute. reflexivity. Qed.

Example fromDict_toDict_scenario :
  run (c ← IsrProvenance.__init__ (VStr "flat") (Value VNone) (Value VNone) VNone VNone;
       let c := IsrProvenance.fromDataIds c
                  [ {[ "exposure" := VInt 100; "detector" := VInt 5 ]};
                    {[ "exposure" := VInt 101; "detector" := VInt 5 ]} ] in
       '(c, dictionary) ← IsrProvenance.toDict c;
       calib ← IsrProvenance.fromDict dictionary;
       IsrProvenance.__eq__ calib c)
      world0
  = Ok true.
Proof. vm_compute. reflexivity. Qed.

(** ** Aliasing of the metadata *)

Lemma stamped_unsynchronized (self : IsrProvenance.t) (m : PropertyList)
    (date : datetime) (k : string) :
  k ∉ synchronized_keys → stamped self m date !! k = m !! k.
Proof.
  intros Hk. unfold synchronized_keys in Hk. apply stamped_other; set_solver.
Qed.

(** [setMetadata] stores a copy: the calibration's mapping is a new one,
    and a later change of the argument does not reach it. *)
Lemma setMetadata_copies (self : IsrCalib.t) (metadata : loc) (m : PropertyList)
    (k : string) (v : value) (w : world) :
  heap w !! metadata = Some m →
  ∃ self' md w1 w2,
    IsrCalib.setMetadata self (Some metadata) w = Ok (self', w1)
    ∧ IsrCalib._metadata self' = Some md
    ∧ md ≠ metadata
    ∧ md_setitem metadata k v w1 = Ok (tt, w2)
    ∧ heap w2 !! metadata = Some (<[k := v]> m)
    ∧ heap w2 !! md = Some (class_entries (IsrCalib.__class__ self) m).
Proof.
  intros Hm.
  assert (Hne : fresh (dom (heap w)) ≠ metadata).
  { intros E. pose proof (fresh_lookup (heap w)) as Hf. rewrite E in Hf. congruence. }
  eexists _, _, _, _. split; [by apply setMetadata_ok|].
  split; [reflexivity|]. split; [exact Hne|]. split.
  { eapply md_setitem_ok. rewrite heap_with_heap, lookup_insert_ne by done. exact Hm. }
  rewrite !heap_with_heap. split.
  - apply lookup_insert_eq.
  - rewrite lookup_insert_ne by done. apply lookup_insert_eq.
Qed.

(** C9 (amended): [getMetadata] returns the reference the calibration
    holds, without copying.  After the caller sets a key through it, the
    calibration's metadata attribute has the new entry and [__eq__]
    compares the changed mapping; if the key is not one that [toDict] and
    [toTable] write anew, the entry is in the mapping that [toDict] hands
    out and, unless its value is [None], in the metadata of the table that
    [toTable] builds.  [setMetadata], on the other hand, stores a copy. *)
Theorem getMetadata_is_live (self : IsrProvenance.t) (md : loc) (m : PropertyList)
    (k : string) (v : value) (w : world) :
  well_formed self md m w →
  let w1 := with_heap (<[md := <[k := v]> m]> (heap w)) w in
  IsrCalib.getMetadata (IsrProvenance.super self) w = Ok (md, w)
  ∧ md_setitem md k v w = Ok (tt, w1)
  ∧ getattr self "_metadata" w1 = Ok (AMetadata (<[k := v]> m), w1)
  ∧ (∀ other md2 m2,
       IsrCalib.__class__ (IsrProvenance.super other) = IsrProvenanceCls →
       IsrCalib._metadata (IsrProvenance.super other) = Some md2 →
       md2 ≠ md →
       heap w !! md2 = Some m2 →
       IsrProvenance.__eq__ self other w
       = Ok (bool_decide (equivalent self m other m2), w)
       ∧ IsrProvenance.__eq__ self other w1
         = Ok (bool_decide (equivalent self (<[k := v]> m) other m2), w1)
       ∧ (m2 !! k ≠ Some v → IsrProvenance.__eq__ self other w1 = Ok (false, w1)))
  ∧ (k ∉ synchronized_keys →
       ∃ dictionary w2,
         IsrProvenance.toDict self w1 = Ok ((self, dictionary), w2)
         ∧ ProvenanceDict.metadata dictionary = Some (ProvenanceDict.Ref md)
         ∧ ∃ contents, dictionary_metadata dictionary w2 = Ok (contents, w2)
                       ∧ contents !! k = Some v)
  ∧ (k ∉ synchronized_keys → v ≠ VNone →
       ∀ catalog,
         Table_new (IsrProvenance.dataIdList self)
           (set_iter w (IsrProvenance.dimensions self)) = Ok catalog →
         ∃ table w2,
           IsrProvenance.toTable self w1 = Ok ((self, [table]), w2)
           ∧ meta table !! k = Some v)
  ∧ (∀ metadata contents k' v',
       heap w !! metadata = Some contents →
       ∃ base md' w2 w3,
         IsrCalib.setMetadata (IsrProvenance.super self) (Some metadata) w = Ok (base, w2)
         ∧ IsrCalib._metadata base = Some md'
         ∧ md' ≠ metadata
         ∧ md_setitem metadata k' v' w2 = Ok (tt, w3)
         ∧ heap w3 !! md' = Some (class_entries IsrProvenanceCls contents)).
Proof.
  intros (Hcls & Hmd & Hm & Hreq) w1.
  assert (Hm1 : heap w1 !! md = Some (<[k := v]> m)) by apply lookup_insert_eq.
  split_and!.
  - unfold IsrCalib.getMetadata. by rewrite Hmd.
  - by apply md_setitem_ok.
  - by rewrite (getattr_ok self md (<[k := v]> m)).
  - intros other md2 m2 Hc2 Hmd2 Hne Hm2.
    assert (Hm2' : heap w1 !! md2 = Some m2) by (subst w1; simpl; by rewrite lookup_insert_ne).
    split_and!.
    + by apply (eq_spec self other md md2).
    + by apply (eq_spec self other md md2).
    + intros Hk. rewrite (eq_spec self other md md2 (<[k := v]> m) m2) by done.
      rewrite bool_decide_eq_false_2; [done|].
      intros (_ & _ & _ & _ & _ & _ & _ & _ & _ & E & _). destruct Hk.
      by rewrite <- E, lookup_insert_eq.
  - intros Hk. eexists _, _. split; [by eapply toDict_ok|]. split; [reflexivity|].
    eexists. split.
    + unfold dictionary_metadata. simpl. erewrite bind_ok by reflexivity.
      apply md_read_ok. rewrite heap_with_heap. apply lookup_insert_eq.
    + by rewrite stamped_unsynchronized, lookup_insert_eq.
  - intros Hk Hv catalog Hcat. eexists _, _. split; [by eapply toTable_ok|].
    simpl. apply map_lookup_filter_Some. split; [|done].
    by rewrite stamped_unsynchronized, lookup_insert_eq.
  - intros metadata contents k' v' Hc.
    destruct (setMetadata_copies (IsrProvenance.super self) metadata contents k' v' w Hc)
      as (base & md' & w2 & w3 & ? & ? & ? & ? & ? & Hcopy).
    rewrite Hcls in Hcopy. eauto 10.
Qed.

Lemma getMetadata_is_live_witness :
  let self := IsrProvenance.mk (new_base VNone VNone 2%positive) (VStr "flat") ∅ [] in
  let w := with_heap {[ 2%positive := initial_metadata ]} world0 in
  let w1 := with_heap (<[2%positive := <["NOTE" := VStr "x"]> initial_metadata]> (heap w)) w in
  well_formed self 2%positive initial_metadata w
  ∧ md_setitem 2%positive "NOTE" (VStr "x") w = Ok (tt, w1)
  ∧ ∃ dictionary w2,
      IsrProvenance.toDict self w1 = Ok ((self, dictionary), w2)
      ∧ ∃ contents, dictionary_metadata dictionary w2 = Ok (contents, w2)
                    ∧ contents !! "NOTE" = Some (VStr "x").
Proof.
  intros self w w1.
  assert (Hwf : well_formed self 2%positive initial_metadata w).
  { unfold well_formed. split_and!; reflexivity. }
  split; [exact Hwf|].
  destruct (getMetadata_is_live self 2%positive initial_metadata "NOTE" (VStr "x") w Hwf)
    as (_ & Hset & _ & _ & Hdict & _).
  split; [exact Hset|].
  destruct Hdict as (dictionary & w2 & Hrun & _ & contents & Hread & Hk).
  { unfold synchronized_keys. set_solver. }
  exists dictionary, w2. split; [exact Hrun|]. exists contents. by split.
Defined.

(** C9 (as stated) fails for the keys that are written anew: an
    instrument name set through the mapping that [getMetadata] returned is
    replaced by [None] when [toDict] runs, and is absent from the table
    of [toTable]. *)
Lemma getMetadata_mutation_not_persisted :
  run (c ← IsrProvenance.__init__ (VStr "flat") (Value VNone) (Value VNone) VNone VNone;
       md ← IsrCalib.getMetadata (IsrProvenance.super c);
       md_setitem md "INSTRUME" (VStr "X");;
       before ← md_read md;
       '(c, dictionary) ← IsrProvenance.toDict c;
       contents ← dictionary_metadata dictionary;
       '(c, tableList) ← IsrProvenance.toTable c;
       mret (before !! "INSTRUME", contents !! "INSTRUME",
             (λ table, meta table !! "INSTRUME") <$> tableList))
      world0
  = Ok (Some (VStr "X"), Some VNone, [None]).
Proof. vm_compute. reflexivity. Qed.

(** ** Round trip through a table *)


















Example fromTable_toTable_scenario :
  run (c ← IsrProvenance.__init__ (VStr "flat") (Value VNone) (Value VNone) VNone VNone;
       let c := IsrProvenance.fromDataIds c
                  [ {[ "exposure" := VInt 100; "detector" := VInt 5 ]};
                    {[ "exposure" := VInt 101; "detector" := VInt 5 ]} ] in
       '(c, tableList) ← IsrProvenance.toTable c;
       calib ← IsrProvenance.fromTable tableList;
       IsrProvenance.__eq__ calib c)
      world0
  = Ok true.
Proof. vm_compute. reflexivity. Qed.
(** * Further properties of the code *)

(** ** [setMetadata] *)

Lemma class_entries_lookup (cls : pycls) (m : PropertyList) (k : string) :
  class_entries cls m !! k
  = if decide (k = _OBSTYPE cls +:+ "_VERSION") then Some (VInt (_VERSION cls))
    else if decide (k = _OBSTYPE cls +:+ "_SCHEMA") then Some (VStr (_SCHEMA cls))
    else if decide (k = "OBSTYPE") then Some (VStr (_OBSTYPE cls))
    else m !! k.
Proof.
  unfold class_entries. rewrite !lookup_insert.
  repeat case_decide; congruence.
Qed.

(** X1: [setMetadata(metadata)] gives the calibration a new mapping and
    leaves every mapping that existed, the argument included, as it was.
    The new mapping has the entries of the argument, except that
    [OBSTYPE], [<OBSTYPE>_SCHEMA] and [<OBSTYPE>_VERSION] hold the
    constants of the calibration's class, whatever the argument had under
    them.  No attribute other than [_metadata] changes. *)
Theorem setMetadata_new_mapping (self : IsrCalib.t) (metadata : loc) (m : PropertyList)
    (w : world) :
  heap w !! metadata = Some m →
  let cls := IsrCalib.__class__ self in
  ∃ md w' contents,
    IsrCalib.setMetadata self (Some metadata) w
    = Ok (IsrCalib.set_metadata (Some md) self, w')
    ∧ heap w !! md = None
    ∧ (∀ l, l ≠ md → heap w' !! l = heap w !! l)
    ∧ heap w' !! md = Some contents
    ∧ contents !! "OBSTYPE" = Some (VStr (_OBSTYPE cls))
    ∧ contents !! (_OBSTYPE cls +:+ "_SCHEMA") = Some (VStr (_SCHEMA cls))
    ∧ contents !! (_OBSTYPE cls +:+ "_VERSION") = Some (VInt (_VERSION cls))
    ∧ ∀ k, k ∉ ["OBSTYPE"; _OBSTYPE cls +:+ "_SCHEMA"; _OBSTYPE cls +:+ "_VERSION"] →
           contents !! k = m !! k.
Proof.
  intros Hm cls.
  exists (fresh (dom (heap w))),
    (with_heap (<[fresh (dom (heap w)) := class_entries cls m]> (heap w)) w),
    (class_entries cls m).
  split; [by apply setMetadata_ok|].
  split; [apply fresh_lookup|].
  split; [intros l Hl; rewrite heap_with_heap; by apply lookup_insert_ne|].
  split; [rewrite heap_with_heap; apply lookup_insert_eq|].
  rewrite !class_entries_lookup. subst cls.
  destruct (IsrCalib.__class__ self); split_and!; try reflexivity;
    intros k Hk; rewrite class_entries_lookup;
    rewrite !decide_False; try done; set_solver.
Qed.

Lemma setMetadata_new_mapping_witness :
  ∃ md w' contents,
    IsrCalib.setMetadata (IsrCalib.object_new IsrProvenanceCls) (Some 1%positive)
      (with_heap {[ 1%positive := {[ "OBSTYPE" := VStr "BIAS"; "NOTE" := VStr "x" ]} ]} world0)
    = Ok (IsrCalib.set_metadata (Some md) (IsrCalib.object_new IsrProvenanceCls), w')
    ∧ heap w' !! md = Some contents
    ∧ contents !! "OBSTYPE" = Some (VStr "IsrProvenance")
    ∧ contents !! "NOTE" = Some (VStr "x").
Proof.
  destruct (setMetadata_new_mapping (IsrCalib.object_new IsrProvenanceCls) 1%positive
              {[ "OBSTYPE" := VStr "BIAS"; "NOTE" := VStr "x" ]}
              (with_heap {[ 1%positive := {[ "OBSTYPE" := VStr "BIAS"; "NOTE" := VStr "x" ]} ]}
                 world0))
    as (md & w' & contents & Hrun & _ & _ & Hc & Hobs & _ & _ & Hother).
  { reflexivity. }
  exists md, w', contents. split; [exact Hrun|]. split; [exact Hc|]. split; [exact Hobs|].
  rewrite Hother; [reflexivity|]. simpl. set_solver.
Defined.

(** X2: [setMetadata(None)] does not replace the mapping: it writes the
    three class entries into the mapping the calibration already has, so
    that a reference obtained from [getMetadata] stays live; a calibration
    that has no metadata yet gets an [AttributeError]. *)
Theorem setMetadata_None_in_place (self : IsrCalib.t) (w : world) :
  (∀ md m,
     IsrCalib._metadata self = Some md →
     heap w !! md = Some m →
     IsrCalib.setMetadata self None w
     = Ok (self, with_heap (<[md := class_entries (IsrCalib.__class__ self) m]> (heap w)) w))
  ∧ (IsrCalib._metadata self = None →
     IsrCalib.setMetadata self None w = Raise (AttributeError "_metadata")).
Proof.
  split.
  - intros md m Hmd Hm. unfold IsrCalib.setMetadata.
    erewrite bind_ok by reflexivity.
    erewrite bind_ok by (by eapply metadata_setitem_ok).
    erewrite bind_ok by
      (eapply metadata_setitem_ok; [done | rewrite heap_with_heap; apply lookup_insert_eq]).
    erewrite bind_ok by
      (eapply metadata_setitem_ok; [done | rewrite heap_with_heap; apply lookup_insert_eq]).
    rewrite !heap_with_heap, !with_heap_with_heap, !insert_insert_eq. reflexivity.
  - intros Hmd. unfold IsrCalib.setMetadata.
    erewrite bind_ok by reflexivity.
    unfold IsrCalib.metadata_setitem, IsrCalib.getMetadata. rewrite Hmd. reflexivity.
Qed.

Lemma setMetadata_None_in_place_witness :
  IsrCalib.setMetadata (IsrCalib.set_metadata (Some 1%positive)
                          (IsrCalib.object_new IsrCalibCls)) None
    (with_heap {[ 1%positive := ∅ ]} world0)
  = Ok (IsrCalib.set_metadata (Some 1%positive) (IsrCalib.object_new IsrCalibCls),
        with_heap (<[1%positive := class_entries IsrCalibCls ∅]> {[ 1%positive := ∅ ]})
          world0).
Proof.
  exact (proj1 (setMetadata_None_in_place
                  (IsrCalib.set_metadata (Some 1%positive) (IsrCalib.object_new IsrCalibCls))
                  (with_heap {[ 1%positive := ∅ ]} world0))
           1%positive ∅ eq_refl eq_refl).
Defined.

(** ** [updateMetadata] *)

(** [updateMetadata] with an optional camera, without detector and without
    [setCalibId]. *)
Lemma updateMetadata_camera_ok (self : IsrCalib.t) (md : loc) (m : PropertyList)
    (camera : option Camera.t) (filterName : value) (setDate : bool)
    (kwargs : gmap string value) (w : world) :
  IsrCalib._metadata self = Some md →
  heap w !! md = Some m →
  IsrCalib.updateMetadata self (camera_arg camera) (Value VNone) filterName false setDate
    kwargs w
  = let self0 := match camera with
                 | Some camera => IsrCalib.set_instrument (VStr (Camera.getName camera)) self
                 | None => self
                 end in
    let self' := if truthy filterName then IsrCalib.set_filter filterName self0 else self0 in
    let dates := if setDate then date_entries (clock w (ticks w)) else ∅ in
    let w1 := if setDate then tick w else w in
    Ok (self', with_heap (<[md := (kwargs ∪ dates) ∪ sync self' m]> (heap w)) w1).
Proof.
  intros Hmd Hm. destruct camera as [camera|]; [|by apply updateMetadata_plain].
  unfold IsrCalib.updateMetadata.
  erewrite bind_ok by (unfold IsrCalib.getMetadata; rewrite Hmd; reflexivity).
  cbn [camera_arg from_option arg_truthy truthy].
  erewrite bind_ok by reflexivity. erewrite bind_ok by reflexivity.
  erewrite bind_ok by reflexivity.
  cbv zeta.
  set (self' := if truthy filterName then _ else _).
  assert (Hmd' : IsrCalib._metadata self' = Some md).
  { subst self'. by destruct (truthy filterName). }
  destruct setDate.
  - erewrite bind_ok by reflexivity.
    rewrite (sync_steps self' md m) by done.
    erewrite bind_ok by (apply md_update_ok; rewrite heap_with_heap; apply lookup_insert_eq).
    cbn. rewrite insert_insert_eq. done.
  - erewrite bind_ok by reflexivity.
    rewrite (sync_steps self' md m) by done.
    erewrite bind_ok by (apply md_update_ok; rewrite heap_with_heap; apply lookup_insert_eq).
    cbn. rewrite insert_insert_eq. done.
Qed.

(** The entries of the metadata after [updateMetadata]: the keywords
    first, then the date entries, then the identity keys, then what was
    there. *)
Lemma updated_lookup (kwargs dates : gmap string value) (self : IsrCalib.t)
    (m : PropertyList) (k : string) :
  ((kwargs ∪ dates) ∪ sync self m) !! k
  = match kwargs !! k with
    | Some v => Some v
    | None =>
        match dates !! k with
        | Some v => Some v
        | None =>
            match sync self ∅ !! k with
            | Some v => Some v
            | None => m !! k
            end
        end
    end.
Proof.
  rewrite !lookup_union, (sync_lookup self m).
  destruct (kwargs !! k), (dates !! k), (sync self ∅ !! k), (m !! k); reflexivity.
Qed.






(** X4: without [setDate], [updateMetadata] is idempotent: a second call
    with the same arguments changes neither the calibration nor the
    state. *)
Theorem updateMetadata_idempotent (self : IsrCalib.t) (md : loc) (m : PropertyList)
    (camera : option Camera.t) (filterName : value) (kwargs : gmap string value)
    (w : world) :
  IsrCalib._metadata self = Some md →
  heap w !! md = Some m →
  ∃ self' w',
    IsrCalib.updateMetadata self (camera_arg camera) (Value VNone) filterName false false
      kwargs w = Ok (self', w')
    ∧ IsrCalib.updateMetadata self' (camera_arg camera) (Value VNone) filterName false false
        kwargs w' = Ok (self', w').
Proof.
  intros Hmd Hm.
  rewrite (updateMetadata_camera_ok self md m camera filterName false kwargs w Hmd Hm).
  cbv zeta.
  set (self0 := match camera with Some _ => _ | None => _ end).
  set (self' := if truthy filterName then _ else _).
  assert (Hmd' : IsrCalib._metadata self' = Some md).
  { subst self' self0. by destruct (truthy filterName), camera. }
  eexists _, _. split; [reflexivity|].
  erewrite updateMetadata_camera_ok;
    [|exact Hmd'|rewrite heap_with_heap; apply lookup_insert_eq].
  cbv zeta.
  assert ((if truthy filterName
           then IsrCalib.set_filter filterName
                  match camera with
                  | Some camera0 =>
                      IsrCalib.set_instrument (VStr (Camera.getName camera0)) self'
                  | None => self'
                  end
           else match camera with
                | Some camera0 =>
                    IsrCalib.set_instrument (VStr (Camera.getName camera0)) self'
                | None => self'
                end) = self') as ->.
  { subst self' self0. by destruct (truthy filterName), camera. }
  rewrite heap_with_heap, with_heap_with_heap, insert_insert_eq.
  assert (kwargs ∪ ∅ ∪ sync self' (kwargs ∪ ∅ ∪ sync self' m)
          = kwargs ∪ ∅ ∪ sync self' m) as ->; [|reflexivity].
  apply map_eq. intros k. rewrite !updated_lookup. rewrite lookup_empty.
  by destruct (kwargs !! k), (sync self' ∅ !! k).
Qed.

Lemma updateMetadata_idempotent_witness :
  ∃ self' w',
    IsrCalib.updateMetadata
      (IsrCalib.set_metadata (Some 1%positive) (IsrCalib.object_new IsrCalibCls))
      (camera_arg None) (Value VNone) (VStr "r") false false {[ "NOTE" := VStr "x" ]}
      (with_heap {[ 1%positive := ∅ ]} world0) = Ok (self', w')
    ∧ IsrCalib.updateMetadata self' (camera_arg None) (Value VNone) (VStr "r") false false
        {[ "NOTE" := VStr "x" ]} w' = Ok (self', w').
Proof.
  assert (Hm : heap (with_heap {[ 1%positive := ∅ ]} world0) !! 1%positive
               = Some (∅ : PropertyList)) by (vm_compute; reflexivity).
  exact (updateMetadata_idempotent
           (IsrCalib.set_metadata (Some 1%positive) (IsrCalib.object_new IsrCalibCls))
           1%positive ∅ None (VStr "r") {[ "NOTE" := VStr "x" ]}
           (with_heap {[ 1%positive := ∅ ]} world0) eq_refl Hm).
Defined.

(** X5: a detector whose name has no underscore gives the calibration its
    name, serial and id, and leaves the raft and the slot as they were:
    those of an earlier detector stay, in the attributes and in the
    metadata. *)
Theorem updateMetadata_detector_no_underscore (self : IsrCalib.t) (md : loc)
    (m : PropertyList) (camera : option Camera.t) (detector : Detector.t)
    (filterName : value) (setDate : bool) (kwargs : gmap string value) (w : world) :
  IsrCalib._metadata self = Some md →
  heap w !! md = Some m →
  count_char "_" (Detector.getName detector) = 0 →
  ∃ self' w',
    IsrCalib.updateMetadata self (camera_arg camera) (DetectorObj detector)
      filterName false setDate kwargs w = Ok (self', w')
    ∧ IsrCalib._detectorName self' = VStr (Detector.getName detector)
    ∧ IsrCalib._detectorSerial self' = VStr (Detector.getSerial detector)
    ∧ IsrCalib._detectorId self' = VInt (Detector.getId detector)
    ∧ IsrCalib._raftName self' = IsrCalib._raftName self
    ∧ IsrCalib._slotName self' = IsrCalib._slotName self
    ∧ heap w' !! md
      = Some ((kwargs ∪ (if setDate then date_entries (clock w (ticks w)) else ∅))
              ∪ sync self' m).
Proof.
  intros Hmd Hm Hc.
  assert (Hnone : contains "_" (Detector.getName detector) = false).
  { destruct (contains "_" (Detector.getName detector)) eqn:E; [|done].
    apply contains_count in E. lia. }
  unfold IsrCalib.updateMetadata.
  erewrite bind_ok by (unfold IsrCalib.getMetadata; rewrite Hmd; reflexivity).
  set (self0 := match camera with
                | Some camera => IsrCalib.set_instrument (VStr (Camera.getName camera)) self
                | None => self
                end).
  erewrite (bind_ok _ _ _ _ self0) by (subst self0; destruct camera; reflexivity).
  simpl arg_truthy. cbv iota.
  erewrite bind_ok; cycle 1.
  { erewrite bind_ok by reflexivity. erewrite bind_ok by reflexivity.
    erewrite bind_ok by reflexivity. rewrite Hnone. reflexivity. }
  erewrite bind_ok by reflexivity.
  match goal with |- context [IsrCalib.metadata_setitem ?s _ _] => set (self' := s) end.
  assert (Hmd' : IsrCalib._metadata self' = Some md).
  { subst self' self0. destruct (truthy filterName), camera; done. }
  destruct setDate.
  - erewrite bind_ok by reflexivity.
    rewrite (sync_steps self' md m) by done.
    erewrite bind_ok by (apply md_update_ok; rewrite heap_with_heap; apply lookup_insert_eq).
    eexists _, _. split; [reflexivity|].
    cbn [heap with_heap tick]. rewrite insert_insert_eq, lookup_insert_eq.
    subst self' self0. destruct (truthy filterName), camera; done.
  - erewrite bind_ok by reflexivity.
    rewrite (sync_steps self' md m) by done.
    erewrite bind_ok by (apply md_update_ok; rewrite heap_with_heap; apply lookup_insert_eq).
    eexists _, _. split; [reflexivity|].
    cbn [heap with_heap tick]. rewrite insert_insert_eq, lookup_insert_eq.
    subst self' self0. destruct (truthy filterName), camera; done.
Qed.

Lemma updateMetadata_detector_no_underscore_witness :
  ∃ self' w',
    IsrCalib.updateMetadata
      (IsrCalib.set_raftName (VStr "R22")
         (IsrCalib.set_metadata (Some 1%positive) (IsrCalib.object_new IsrCalibCls)))
      (camera_arg None)
      (DetectorObj {| Detector.getName := "ccd07"; Detector.getSerial := "ITL";
                      Detector.getId := 7 |})
      VNone false false ∅ (with_heap {[ 1%positive := ∅ ]} world0) = Ok (self', w')
    ∧ IsrCalib._detectorName self' = VStr "ccd07"
    ∧ IsrCalib._raftName self' = VStr "R22".
Proof.
  assert (Hm : heap (with_heap {[ 1%positive := ∅ ]} world0) !! 1%positive
               = Some (∅ : PropertyList)) by (vm_compute; reflexivity).
  assert (Hc : count_char "_" "ccd07" = 0) by reflexivity.
  destruct (updateMetadata_detector_no_underscore
              (IsrCalib.set_raftName (VStr "R22")
                 (IsrCalib.set_metadata (Some 1%positive) (IsrCalib.object_new IsrCalibCls)))
              1%positive ∅ None
              {| Detector.getName := "ccd07"; Detector.getSerial := "ITL";
                 Detector.getId := 7 |}
              VNone false ∅ (with_heap {[ 1%positive := ∅ ]} world0) eq_refl Hm Hc)
    as (self' & w' & Hrun & Hname & _ & _ & Hraft & _).
  exists self', w'. split; [exact Hrun|]. split; [exact Hname|exact Hraft].
Defined.

(** ** Construction *)

(** X6: [fromDetector] is abstract and [IsrProvenance] does not implement
    it, so a provenance, and an instance of the base class, can never be
    constructed from a detector: with any true [detector] argument the
    constructor raises [NotImplementedError], whatever the other
    arguments. *)
Theorem init_detector_NotImplementedError (detector camera : arg)
    (calibType detectorName detectorId : value) (w : world) :
  arg_truthy detector = true →
  IsrProvenance.__init__ calibType camera detector detectorName detectorId w
  = Raise (NotImplementedError "Must be implemented by subclass.")
  ∧ IsrCalib.__init__ (IsrCalib.object_new IsrCalibCls) camera detector detectorName
      detectorId w
    = Raise (NotImplementedError "Must be implemented by subclass.").
Proof.
  intros Hdet. split.
  - unfold IsrProvenance.__init__, IsrCalib.__init__.
    unfold mbind at 1, M_bind at 1.
    erewrite bind_ok by apply alloc_ok.
    erewrite bind_ok by
      (apply setMetadata_ok; rewrite heap_with_heap; apply lookup_insert_eq).
    rewrite Hdet. reflexivity.
  - unfold IsrCalib.__init__.
    erewrite bind_ok by apply alloc_ok.
    erewrite bind_ok by
      (apply setMetadata_ok; rewrite heap_with_heap; apply lookup_insert_eq).
    rewrite Hdet. reflexivity.
Qed.

Lemma init_detector_NotImplementedError_witness :
  IsrProvenance.__init__ (VStr "flat") (Value VNone)
    (DetectorObj {| Detector.getName := "ccd07"; Detector.getSerial := "ITL";
                    Detector.getId := 7 |}) VNone VNone world0
  = Raise (NotImplementedError "Must be implemented by subclass.").
Proof.
  exact (proj1 (init_detector_NotImplementedError
                  (DetectorObj {| Detector.getName := "ccd07"; Detector.getSerial := "ITL";
                                  Detector.getId := 7 |})
                  (Value VNone) (VStr "flat") VNone VNone world0 eq_refl)).
Defined.



(** ** [__eq__] *)

Lemma eq_attrs_ok {T U} `{PyObject T} `{PyObject U} (x : T) (y : U) (f g : string → attr)
    (w : world) (attrs : list string) :
  (∀ name, name ∈ attrs →
     getattr x name w = Ok (f name, w) ∧ getattr y name w = Ok (g name, w)) →
  IsrCalib.eq_attrs x y attrs w
  = Ok (forallb (λ name, bool_decide (f name = g name)) attrs, w).
Proof.
  induction attrs as [|name attrs IH]; intros Hg; simpl; [done|].
  destruct (Hg name) as [H1 H2]; [set_solver|].
  erewrite bind_ok by exact H1. erewrite bind_ok by exact H2.
  case_bool_decide as Hne.
  - rewrite bool_decide_eq_false_2 by done. done.
  - rewrite bool_decide_eq_true_2 by (by destruct (decide (f name = g name))).
    simpl. apply IH. intros; apply Hg; set_solver.
Qed.

(** An attribute of the base class is found in the same way on an
    instance of the base class and on a provenance around it. *)
Lemma getattr_base (c : IsrCalib.t) (calibType : value) (dimensions : gset string)
    (dataIdList : list dataId) (name : string) (w : world) :
  name ∉ ["calibType"; "dimensions"; "dataIdList"] →
  getattr c name w = getattr (IsrProvenance.mk c calibType dimensions dataIdList) name w.
Proof.
  intros Hn. unfold getattr at 2, IsrProvenance.object, IsrProvenance.__getattribute__.
  rewrite !bool_decide_eq_false_2 by set_solver. reflexivity.
Qed.

Lemma elements_calib_attributes :
  elements calib_attributes
  ≡ₚ ["_OBSTYPE"; "_SCHEMA"; "_VERSION"; "_instrument"; "_raftName"; "_slotName";
      "_detectorName"; "_detectorSerial"; "_detectorId"; "_filter"; "_calibId";
      "_metadata"].
Proof.
  apply NoDup_Permutation.
  - apply NoDup_elements.
  - apply (bool_decide_eq_true_1 _). vm_compute. reflexivity.
  - intros x. rewrite elem_of_elements. unfold calib_attributes. set_solver.
Qed.

Lemma equivalent_refl (p : IsrProvenance.t) (m : PropertyList) : equivalent p m p m.
Proof. unfold equivalent. by repeat split. Qed.

Lemma equivalent_sym (p1 p2 : IsrProvenance.t) (m1 m2 : PropertyList) :
  equivalent p1 m1 p2 m2 → equivalent p2 m2 p1 m1.
Proof. unfold equivalent. intros H. destruct_and!. by repeat split. Qed.

(** X8: between two provenances as the constructor and the methods leave
    them, [__eq__] never raises and changes nothing, whatever order the
    set of required attributes is enumerated in; it answers [True] exactly
    when the two have the same class, identity attributes, metadata
    entries, calibration type, dimensions and identifiers.  It is
    symmetric, and a provenance equals itself. *)
Theorem eq_decides_equivalent (p1 p2 : IsrProvenance.t) (md1 md2 : loc)
    (m1 m2 : PropertyList) (w : world) :
  well_formed p1 md1 m1 w →
  well_formed p2 md2 m2 w →
  IsrProvenance.__eq__ p1 p2 w = Ok (bool_decide (equivalent p1 m1 p2 m2), w)
  ∧ IsrProvenance.__eq__ p2 p1 w = IsrProvenance.__eq__ p1 p2 w
  ∧ IsrProvenance.__eq__ p1 p1 w = Ok (true, w).
Proof.
  intros H1 H2.
  pose proof H1 as (Hc1 & Hmd1 & Hm1 & _). pose proof H2 as (Hc2 & Hmd2 & Hm2 & _).
  rewrite (eq_spec p1 p2 md1 md2 m1 m2 w H1 Hc2 Hmd2 Hm2).
  rewrite (eq_spec p2 p1 md2 md1 m2 m1 w H2 Hc1 Hmd1 Hm1).
  rewrite (eq_spec p1 p1 md1 md1 m1 m1 w H1 Hc1 Hmd1 Hm1).
  split; [done|]. split.
  - do 2 f_equal. apply bool_decide_ext. split; apply equivalent_sym.
  - do 2 f_equal. apply bool_decide_eq_true_2, equivalent_refl.
Qed.

Lemma eq_decides_equivalent_witness :
  IsrProvenance.__eq__
    (IsrProvenance.mk (new_base VNone VNone 1%positive) (VStr "flat") {[ "visit" ]}
       [ {[ "visit" := VInt 1 ]} ])
    (IsrProvenance.mk (new_base VNone VNone 2%positive) (VStr "flat") {[ "visit" ]}
       [ {[ "visit" := VInt 2 ]} ])
    (with_heap {[ 1%positive := ∅; 2%positive := ∅ ]} world0)
  = Ok (false, with_heap {[ 1%positive := ∅; 2%positive := ∅ ]} world0).
Proof.
  assert (H1 : well_formed
                 (IsrProvenance.mk (new_base VNone VNone 1%positive) (VStr "flat")
                    {[ "visit" ]} [ {[ "visit" := VInt 1 ]} ])
                 1%positive ∅
                 (with_heap {[ 1%positive := ∅; 2%positive := ∅ ]} world0)).
  { split_and!; reflexivity. }
  assert (H2 : well_formed
                 (IsrProvenance.mk (new_base VNone VNone 2%positive) (VStr "flat")
                    {[ "visit" ]} [ {[ "visit" := VInt 2 ]} ])
                 2%positive ∅
                 (with_heap {[ 1%positive := ∅; 2%positive := ∅ ]} world0)).
  { split_and!; reflexivity. }
  rewrite (proj1 (eq_decides_equivalent _ _ _ _ _ _ _ H1 H2)).
  reflexivity.
Defined.

(** X9: a provenance and an instance of the base class never compare
    equal, in either direction and whatever their attributes hold:
    [provenance == calib] fails the class test, and [calib == provenance]
    goes through the attributes and finds that [_OBSTYPE] differs. *)
Theorem eq_between_classes (p : IsrProvenance.t) (c : IsrCalib.t) (mdp mdc : loc)
    (mp mc : PropertyList) (w : world) :
  well_formed p mdp mp w →
  IsrCalib.__class__ c = IsrCalibCls →
  IsrCalib._metadata c = Some mdc →
  heap w !! mdc = Some mc →
  IsrCalib._requiredAttributes c = calib_attributes →
  IsrProvenance.__eq__ p c w = Ok (false, w)
  ∧ IsrCalib.__eq__ c p w = Ok (false, w).
Proof.
  intros (Hcp & Hmdp & Hmp & _) Hcc Hmdc Hmc Hreq. split.
  - unfold IsrProvenance.__eq__, IsrCalib.__eq__.
    unfold type_of, IsrProvenance.object, IsrCalib.object. rewrite Hcp, Hcc. reflexivity.
  - unfold IsrCalib.__eq__.
    assert (Htp : type_of p = IsrProvenanceCls) by exact Hcp.
    assert (Htc : type_of c = IsrCalibCls) by exact Hcc.
    rewrite Htp, Htc. cbn [issubclass negb].
    set (pc := IsrProvenance.mk c VNone ∅ []).
    erewrite bind_ok; cycle 1.
    { rewrite (getattr_base c VNone ∅ []) by set_solver.
      rewrite (getattr_ok pc mdc mc w _ Hmdc Hmc). reflexivity. }
    simpl. rewrite Hreq.
    erewrite bind_ok by reflexivity.
    rewrite (eq_attrs_ok c p (λ name, default (AScalar VNone) (attr_of pc mc name))
               (λ name, default (AScalar VNone) (attr_of p mp name))); cycle 1.
    { intros name Hin. rewrite (set_iter_perm w), elements_calib_attributes in Hin.
      assert (name ∉ ["calibType"; "dimensions"; "dataIdList"]) as Hbase.
      { set_unfold in Hin. set_unfold. intros Hn.
        repeat destruct Hin as [->|Hin]; try done;
          repeat destruct Hn as [Hn|Hn]; done. }
      rewrite (getattr_base c VNone ∅ [] name w Hbase).
      fold pc. rewrite (getattr_ok pc mdc mc w name Hmdc Hmc),
        (getattr_ok p mdp mp w name Hmdp Hmp).
      set_unfold in Hin.
      repeat (destruct Hin as [->|Hin]; [done|]). done. }
    rewrite (forallb_perm _ _ _ (set_iter_perm w _)),
      (forallb_perm _ _ _ elements_calib_attributes).
    do 2 f_equal. cbn [forallb].
    rewrite (bool_decide_eq_false_2
               (default (AScalar VNone) (attr_of pc mc "_OBSTYPE")
                = default (AScalar VNone) (attr_of p mp "_OBSTYPE"))); [done|].
    pose proof (attr_of_required pc mc) as A1. pose proof (attr_of_required p mp) as A2.
    cbv zeta in A1, A2. destruct A1 as [-> _]. destruct A2 as [-> _].
    subst pc. cbn [IsrProvenance.super default]. rewrite Hcc, Hcp. discriminate.
Qed.

Lemma eq_between_classes_witness :
  IsrProvenance.__eq__
    (IsrProvenance.mk (new_base VNone VNone 1%positive) (VStr "flat") ∅ [])
    (IsrCalib.mk IsrCalibCls VNone VNone VNone VNone VNone VNone VNone VNone
       (Some 2%positive) calib_attributes)
    (with_heap {[ 1%positive := ∅; 2%positive := ∅ ]} world0)
  = Ok (false, with_heap {[ 1%positive := ∅; 2%positive := ∅ ]} world0)
  ∧ IsrCalib.__eq__
      (IsrCalib.mk IsrCalibCls VNone VNone VNone VNone VNone VNone VNone VNone
         (Some 2%positive) calib_attributes)
      (IsrProvenance.mk (new_base VNone VNone 1%positive) (VStr "flat") ∅ [])
      (with_heap {[ 1%positive := ∅; 2%positive := ∅ ]} world0)
    = Ok (false, with_heap {[ 1%positive := ∅; 2%positive := ∅ ]} world0).
Proof.
  apply (eq_between_classes _ _ 1%positive 2%positive ∅ ∅).
  - split_and!; reflexivity.
  - reflexivity.
  - reflexivity.
  - vm_compute. reflexivity.
  - reflexivity.
Defined.

(** ** Reading back what was written *)




Section text.
Context {T D : Type}.
Variable toDict : T → M (T * D).
Variable fromDict : D → M T.
Variable toTable : T → M (T * list Table).
Variable fromTable : list Table → M T.





End text.





(** ** The constructor *)

(** The constructor with an optional camera and without detector. *)
Lemma init_camera_ok (calibType : value) (camera : option Camera.t)
    (detectorName detectorId : value) (w : world) :
  let l0 := fresh (dom (heap w)) in
  let md := fresh (dom (<[l0 := ∅]> (heap w))) in
  let base := IsrCalib.mk IsrProvenanceCls
                (from_option (λ c, VStr (Camera.getName c)) VNone camera)
                VNone VNone detectorName VNone detectorId VNone VNone (Some md)
                provenance_attributes in
  IsrProvenance.__init__ calibType (camera_arg camera) (Value VNone) detectorName
    detectorId w
  = Ok (IsrProvenance.mk base calibType ∅ [],
        with_heap (<[md := <["calibType" := calibType]>
                             (sync base (class_entries IsrProvenanceCls ∅))]>
                     (<[l0 := ∅]> (heap w))) w).
Proof.
  intros l0 md base. unfold IsrProvenance.__init__.
  erewrite bind_ok; cycle 1.
  { unfold IsrCalib.__init__.
    erewrite bind_ok by apply alloc_ok. fold l0.
    erewrite bind_ok by
      (apply setMetadata_ok; rewrite heap_with_heap; apply lookup_insert_eq).
    rewrite heap_with_heap, with_heap_with_heap. fold md.
    simpl arg_truthy. cbv iota.
    erewrite bind_ok by reflexivity.
    unfold IsrCalib.virtual_updateMetadata, IsrProvenance.subclass,
      IsrProvenance.updateMetadata.
    erewrite bind_ok; [reflexivity|].
    eapply updateMetadata_camera_ok; [reflexivity|].
    rewrite heap_with_heap. apply lookup_insert_eq. }
  unfold mret, M_ret. cbv zeta.
  rewrite !heap_with_heap, !with_heap_with_heap, insert_insert_eq, (right_id_L ∅ (∪)).
  rewrite <- insert_union_l, (left_id_L ∅ (∪)).
  subst base. destruct camera; reflexivity.
Qed.

(** X14: what [IsrProvenance(calibType, camera, detectorName, detectorId)]
    leaves, without detector.  The new provenance has the given
    calibration type, detector name and detector id, the name of the
    camera as instrument, no dimensions and no identifiers, and is
    [well_formed]: of class [IsrProvenance], with the fifteen required
    attributes, and with metadata in a mapping of its own that did not
    exist before.  No mapping that existed is changed.  The metadata has
    the three class entries, the eight identity keys and [calibType], and
    nothing else. *)
Theorem init_postcondition (calibType : value) (camera : option Camera.t)
    (detectorName detectorId : value) (w : world) :
  ∃ self md m w',
    IsrProvenance.__init__ calibType (camera_arg camera) (Value VNone) detectorName
      detectorId w = Ok (self, w')
    ∧ well_formed self md m w'
    ∧ heap w !! md = None
    ∧ (∀ l m0, heap w !! l = Some m0 → heap w' !! l = Some m0)
    ∧ IsrProvenance.super self
      = IsrCalib.mk IsrProvenanceCls
          (from_option (λ c, VStr (Camera.getName c)) VNone camera)
          VNone VNone detectorName VNone detectorId VNone VNone (Some md)
          provenance_attributes
    ∧ IsrProvenance.calibType self = calibType
    ∧ IsrProvenance.dimensions self = ∅
    ∧ IsrProvenance.dataIdList self = []
    ∧ m = <["calibType" := calibType]>
            (sync (IsrProvenance.super self) (class_entries IsrProvenanceCls ∅))
    ∧ dom m = list_to_set
                ["OBSTYPE"; "IsrProvenance_SCHEMA"; "IsrProvenance_VERSION"; "INSTRUME";
                 "RAFTNAME"; "SLOTNAME"; "DETECTOR"; "DET_NAME"; "DET_SER"; "FILTER";
                 "CALIB_ID"; "calibType"].
Proof.
  set (l0 := fresh (dom (heap w))).
  set (md := fresh (dom (<[l0 := ∅]> (heap w)))).
  set (base := IsrCalib.mk IsrProvenanceCls
                 (from_option (λ c, VStr (Camera.getName c)) VNone camera)
                 VNone VNone detectorName VNone detectorId VNone VNone (Some md)
                 provenance_attributes).
  set (m := <["calibType" := calibType]> (sync base (class_entries IsrProvenanceCls ∅))).
  assert (Hl0 : heap w !! l0 = None) by apply fresh_lookup.
  assert (Hmd : heap w !! md = None).
  { pose proof (fresh_lookup (<[l0 := ∅]> (heap w))) as Hf. fold md in Hf.
    apply lookup_insert_None in Hf. tauto. }
  assert (Hrun : IsrProvenance.__init__ calibType (camera_arg camera) (Value VNone)
                   detectorName detectorId w
                 = Ok (IsrProvenance.mk base calibType ∅ [],
                       with_heap (<[md := m]> (<[l0 := ∅]> (heap w))) w))
    by apply init_camera_ok.
  exists (IsrProvenance.mk base calibType ∅ []), md, m,
    (with_heap (<[md := m]> (<[l0 := ∅]> (heap w))) w).
  split; [exact Hrun|].
  split.
  { split_and!; try reflexivity. rewrite heap_with_heap. apply lookup_insert_eq. }
  split; [exact Hmd|].
  split.
  { intros l m0 Hl. rewrite heap_with_heap.
    rewrite !lookup_insert_ne by congruence. exact Hl. }
  split_and!; reflexivity.
Qed.

Lemma init_postcondition_witness :
  ∃ self md m w',
    IsrProvenance.__init__ (VStr "flat") (camera_arg (Some {| Camera.getName := "LSSTCam" |}))
      (Value VNone) (VStr "R22_S11") (VInt 94) world0 = Ok (self, w')
    ∧ well_formed self md m w'
    ∧ IsrCalib._instrument (IsrProvenance.super self) = VStr "LSSTCam"
    ∧ m !! "DETECTOR" = Some (VInt 94)
    ∧ m !! "RAFTNAME" = Some VNone.
Proof.
  destruct (init_postcondition (VStr "flat") (Some {| Camera.getName := "LSSTCam" |})
              (VStr "R22_S11") (VInt 94) world0)
    as (self & md & m & w' & Hrun & Hwf & _ & _ & Hsuper & _ & _ & _ & Hm & _).
  exists self, md, m, w'. split; [exact Hrun|]. split; [exact Hwf|].
  rewrite Hm, Hsuper. split_and!; reflexivity.
Defined.

(** ** [fromDict] *)









(** ** [fromTable] *)

(** X18: [fromTable] uses the first table of the list only, whatever
    follows it; an empty list is an [IndexError], and a table whose [meta]
    has no [calibType] is a [KeyError]. *)
Theorem fromTable_first_table (w : world) :
  IsrProvenance.fromTable [] w = Raise IndexError
  ∧ (∀ table others,
       IsrProvenance.fromTable (table :: others) w = IsrProvenance.fromTable [table] w)
  ∧ (∀ table others,
       meta table !! "calibType" = None →
       IsrProvenance.fromTable (table :: others) w = Raise (KeyError "calibType")).
Proof.
  split_and!.
  - reflexivity.
  - intros table others. reflexivity.
  - intros table others H. unfold IsrProvenance.fromTable. cbn [lookup list_lookup].
    erewrite bind_ok by reflexivity. rewrite H. reflexivity.
Qed.

Lemma fromTable_first_table_witness :
  IsrProvenance.fromTable
    [ {| columns := ["visit"]; rows := []; meta := {[ "OBSTYPE" := VStr "IsrProvenance" ]} |};
      {| columns := []; rows := []; meta := {[ "calibType" := VStr "flat" ]} |} ] world0
  = Raise (KeyError "calibType").
Proof.
  exact (proj2 (proj2 (fromTable_first_table world0))
           {| columns := ["visit"]; rows := [];
              meta := {[ "OBSTYPE" := VStr "IsrProvenance" ]} |}
           [ {| columns := []; rows := []; meta := {[ "calibType" := VStr "flat" ]} |} ]
           eq_refl).
Defined.






(** ** [toDict] and [toTable] *)

(** X20: [toDict] is not read-only.  It leaves the attributes alone, but
    it writes into the calibration's own mapping, which it also hands out
    as the [metadata] of the dictionary: the three date keys get the
    reading of the clock, [calibType] the calibration type, the identity
    keys the attributes, whatever was there before; every other entry and
    every other mapping stays as it was.  The dictionary lists each
    dimension once, and has the identifiers, the calibration type and the
    three identity fields of the provenance. *)
Theorem toDict_stamps_metadata (self : IsrProvenance.t) (md : loc) (m : PropertyList)
    (w : world) :
  IsrCalib._metadata (IsrProvenance.super self) = Some md →
  heap w !! md = Some m →
  let now := clock w (ticks w) in
  ∃ dictionary dimensions w' m',
    IsrProvenance.toDict self w = Ok ((self, dictionary), w')
    ∧ ProvenanceDict.metadata dictionary = Some (ProvenanceDict.Ref md)
    ∧ heap w' !! md = Some m'
    ∧ ticks w' = S (ticks w)
    ∧ (∀ l, l ≠ md → heap w' !! l = heap w !! l)
    ∧ m' !! "CALIBDATE" = Some (VStr (isoformat now))
    ∧ m' !! "CALIB_CREATION_DATE" = Some (VStr (date_isoformat now))
    ∧ m' !! "CALIB_CREATION_TIME" = Some (VStr (time_isoformat now))
    ∧ m' !! "calibType" = Some (IsrProvenance.calibType self)
    ∧ (∀ k v, sync (IsrProvenance.super self) ∅ !! k = Some v → m' !! k = Some v)
    ∧ (∀ k, k ∉ synchronized_keys → m' !! k = m !! k)
    ∧ ProvenanceDict.dimensions dictionary = Some dimensions
    ∧ dimensions ≡ₚ elements (IsrProvenance.dimensions self)
    ∧ ProvenanceDict.dataIdList dictionary = Some (IsrProvenance.dataIdList self)
    ∧ ProvenanceDict.calibType dictionary = Some (IsrProvenance.calibType self)
    ∧ ProvenanceDict.detectorName dictionary
      = Some (IsrCalib._detectorName (IsrProvenance.super self))
    ∧ ProvenanceDict.detectorSerial dictionary
      = Some (IsrCalib._detectorSerial (IsrProvenance.super self))
    ∧ ProvenanceDict.instrument dictionary
      = Some (IsrCalib._instrument (IsrProvenance.super self)).
Proof.
  intros Hmd Hm now.
  rewrite (toDict_ok self md m w Hmd Hm).
  eexists _, _, _, (stamped self m now). split; [reflexivity|].
  cbn [ProvenanceDict.metadata ProvenanceDict.dimensions ProvenanceDict.dataIdList
       ProvenanceDict.calibType ProvenanceDict.detectorName
       ProvenanceDict.detectorSerial ProvenanceDict.instrument].
  split_and!; try reflexivity.
  - rewrite heap_with_heap. apply lookup_insert_eq.
  - intros l Hl. rewrite heap_with_heap. by apply lookup_insert_ne.
  - rewrite stamped_lookup. rewrite decide_False by done.
    unfold date_entries. by simplify_map_eq.
  - rewrite stamped_lookup. rewrite decide_False by done.
    unfold date_entries. by simplify_map_eq.
  - rewrite stamped_lookup. rewrite decide_False by done.
    unfold date_entries. by simplify_map_eq.
  - apply stamped_calibType.
  - intros k v Hs. by apply stamped_sync.
  - intros k Hk. by apply stamped_unsynchronized.
  - apply set_iter_perm.
Qed.

Lemma toDict_stamps_metadata_witness :
  ∃ dictionary dimensions w' m',
    IsrProvenance.toDict
      (IsrProvenance.mk (new_base VNone VNone 1%positive) (VStr "flat") ∅ [])
      (with_heap {[ 1%positive := {[ "CALIBDATE" := VStr "1999-01-01" ]} ]} world0)
    = Ok ((IsrProvenance.mk (new_base VNone VNone 1%positive) (VStr "flat") ∅ [],
           dictionary), w')
    ∧ ProvenanceDict.dimensions dictionary = Some dimensions
    ∧ heap w' !! 1%positive = Some m'
    ∧ m' !! "CALIBDATE" = Some (VStr "2020-06-01T12:00:00").
Proof.
  assert (Hm : heap (with_heap {[ 1%positive := {[ "CALIBDATE" := VStr "1999-01-01" ]} ]}
                       world0) !! 1%positive
               = Some ({[ "CALIBDATE" := VStr "1999-01-01" ]} : PropertyList))
    by (vm_compute; reflexivity).
  destruct (toDict_stamps_metadata
              (IsrProvenance.mk (new_base VNone VNone 1%positive) (VStr "flat") ∅ [])
              1%positive {[ "CALIBDATE" := VStr "1999-01-01" ]}
              (with_heap {[ 1%positive := {[ "CALIBDATE" := VStr "1999-01-01" ]} ]} world0)
              eq_refl Hm)
    as (dictionary & dimensions & w' & m' & Hrun & _ & Hm' & _ & _ & Hdate & _ & _ & _ & _
        & _ & Hdims & _).
  exists dictionary, dimensions, w', m'.
  split; [exact Hrun|]. split; [exact Hdims|]. split; [exact Hm'|exact Hdate].
Defined.



(** X22: a provenance made by the constructor without a detector id, to
    which identifiers were added with [fromDataIds], survives [toDict]
    followed by [fromDict]: the copy compares equal to it. *)
Theorem toDict_fromDict_constructed (calibType detectorName : value)
    (camera : option Camera.t) (dataIdList : list dataId) (w : world) :
  ∃ new w0 dictionary w1 calib w2,
    IsrProvenance.__init__ calibType (camera_arg camera) (Value VNone) detectorName VNone w
    = Ok (new, w0)
    ∧ let self := IsrProvenance.fromDataIds new dataIdList in
      IsrProvenance.toDict self w0 = Ok ((self, dictionary), w1)
      ∧ IsrProvenance.fromDict dictionary w1 = Ok (calib, w2)
      ∧ IsrProvenance.__eq__ calib self w2 = Ok (true, w2).
Proof.
  rewrite init_camera_ok. cbv zeta.
  set (l0 := fresh (dom (heap w))).
  set (md := fresh (dom (<[l0 := ∅]> (heap w)))).
  set (base := IsrCalib.mk _ _ _ _ _ _ _ _ _ _ _).
  set (m := <["calibType" := calibType]> (sync base (class_entries IsrProvenanceCls ∅))).
  set (w0 := with_heap _ w).
  set (self := IsrProvenance.fromDataIds (IsrProvenance.mk base calibType ∅ []) dataIdList).
  assert (Hsuper : IsrProvenance.super self = base).
  { subst self. by rewrite fromDataIds_spec. }
  destruct (fromDict_toDict self md m w0) as (dictionary & w1 & calib & w2 & H1 & H2 & H3).
  - split_and!; rewrite ?Hsuper; try reflexivity.
    subst w0. rewrite heap_with_heap. apply lookup_insert_eq.
  - intros k Hk. unfold parameter_names in Hk. subst m.
    unfold sync, class_entries. cbn [_OBSTYPE].
    set_unfold in Hk. repeat destruct Hk as [->|Hk]; try done.
  - intros k Hk. subst m. unfold sync, class_entries. cbn [_OBSTYPE].
    set_unfold in Hk. repeat destruct Hk as [->|Hk]; try done.
  - by rewrite Hsuper.
  - by rewrite Hsuper.
  - by rewrite Hsuper.
  - by rewrite Hsuper.
  - by rewrite Hsuper.
  - eexists _, _, dictionary, w1, calib, w2. split; [reflexivity|]. fold self. eauto.
Qed.
